(** * LDAPAuthenticator: a shallow embedding of [ldapauthenticator.py]

    The development follows the source file top to bottom:

    - the fragment of Python's [str] and [re] that the authenticator calls
      ([str.strip], [str.replace], [str.format], [re.match]);
    - the configuration traits of [LDAPAuthenticator];
    - [authenticate], as a computation that logs, talks to a directory
      and may raise;
    - [pre_spawn_start], as a computation over the password database and
      a child process.

    A Python [str] is a [string] of 8-bit code points.  An exception is a
    value of [exn]; a call that may raise returns an [outcome]. *)

From Stdlib Require Import String Ascii List ZArith Lia Bool Arith.
Import ListNotations.
Open Scope string_scope.
Open Scope list_scope.
Open Scope nat_scope.

Set Implicit Arguments.

(* ================================================================== *)
(** ** Exceptions and outcomes *)

Inductive exn : Type :=
  | KeyError (key : string)
  | IndexError (msg : string)
  | ValueError (msg : string)
  | TypeError (msg : string)
  | AttributeError (msg : string)
  | OSError (msg : string)
  | RuntimeError (msg : string)
  | LDAPException (msg : string).

Inductive outcome (A : Type) : Type :=
  | Ret (a : A)
  | Raise (e : exn).

Arguments Ret {A} a.
Arguments Raise {A} e.

Definition raises {A} (o : outcome A) : Prop :=
  exists e, o = Raise e.

Definition returns {A} (o : outcome A) : Prop :=
  exists a, o = Ret a.

(* ================================================================== *)
(** ** Strings *)

Module PyStr.

Definition code (c : ascii) : nat := nat_of_ascii c.

Definition in_range (lo hi c : ascii) : bool :=
  (code lo <=? code c) && (code c <=? code hi).

(** [str.isspace] on one code point below 256: TAB..CR, FS..US, space,
    NEL and NBSP. *)
Definition is_space (c : ascii) : bool :=
  let n := code c in
  ((9 <=? n) && (n <=? 13)) || ((28 <=? n) && (n <=? 31))
  || (n =? 32) || (n =? 133) || (n =? 160).

Fixpoint all_chars (p : ascii -> bool) (s : string) : bool :=
  match s with
  | EmptyString => true
  | String c s' => p c && all_chars p s'
  end.

Fixpoint has_char (p : ascii -> bool) (s : string) : bool :=
  match s with
  | EmptyString => false
  | String c s' => p c || has_char p s'
  end.

Definition rev (s : string) : string :=
  string_of_list_ascii (List.rev (list_ascii_of_string s)).

Fixpoint lstrip (s : string) : string :=
  match s with
  | EmptyString => EmptyString
  | String c s' => if is_space c then lstrip s' else s
  end.

Definition rstrip (s : string) : string := rev (lstrip (rev s)).

(** [s.strip()] *)
Definition strip (s : string) : string := rstrip (lstrip s).

Fixpoint drop (n : nat) (s : string) : string :=
  match n, s with
  | O, _ => s
  | S n', String _ s' => drop n' s'
  | S _, EmptyString => EmptyString
  end.

(** [s.startswith(old)] *)
Fixpoint startswith (s old : string) {struct old} : bool :=
  match old with
  | EmptyString => true
  | String a old' =>
      match s with
      | EmptyString => false
      | String b s' => Ascii.eqb a b && startswith s' old'
      end
  end.

(** [s.replace(old, new)] for a non-empty [old]: scan from the left,
    at each occurrence of [old] emit [new] and jump over it.  [skip]
    counts the characters of the occurrence still to jump over. *)
Fixpoint replace_from (old new : string) (skip : nat) (s : string) : string :=
  match s with
  | EmptyString => EmptyString
  | String c s' =>
      match skip with
      | S k => replace_from old new k s'
      | O =>
          if startswith s old
          then (new ++ replace_from old new (String.length old - 1) s')%string
          else String c (replace_from old new 0 s')
      end
  end.

(** With an empty [old] Python puts [new] before every character and
    at the end. *)
Fixpoint intersperse (new s : string) : string :=
  match s with
  | EmptyString => new
  | String c s' => (new ++ String c (intersperse new s'))%string
  end.

Definition replace (old new s : string) : string :=
  match old with
  | EmptyString => intersperse new s
  | String _ _ => replace_from old new 0 s
  end.

(** [old in s] *)
Fixpoint contains (old s : string) : bool :=
  startswith s old ||
  match s with
  | EmptyString => false
  | String _ s' => contains old s'
  end.

End PyStr.

(* ================================================================== *)
(** ** Regular expressions: the fragment of [re] used by the default
       pattern, as the syntax tree [re.compile] builds *)

Module Re.

Inductive regex : Type :=
  | Eps
  | Bol                                         (* ^ *)
  | Eol                                         (* $ *)
  | Chr (c : ascii)
  | Cls (ranges : list (ascii * ascii))         (* [...] *)
  | NCls (ranges : list (ascii * ascii))        (* [^...] *)
  | Seq (r1 r2 : regex)
  | Alt (r1 r2 : regex)
  | Star (r : regex).

Definition plus (r : regex) : regex := Seq r (Star r).

(** Where the matcher stands: how many characters lie behind it and
    what is still ahead. *)
Definition cursor : Type := nat * string.

Definition in_class (ranges : list (ascii * ascii)) (c : ascii) : bool :=
  existsb (fun '(lo, hi) => PyStr.in_range lo hi c) ranges.

Definition newline : ascii := ascii_of_nat 10.

(** Without MULTILINE, [$] holds at the end of the string and just
    before a newline that ends the string. *)
Definition at_eol (rest : string) : bool :=
  match rest with
  | EmptyString => true
  | String c EmptyString => Ascii.eqb c newline
  | _ => false
  end.

Definition one_char (p : ascii -> bool) (cur : cursor) : list cursor :=
  match snd cur with
  | String c rest => if p c then [(S (fst cur), rest)] else []
  | EmptyString => []
  end.

(** Zero or more rounds of [step]; a round that consumes nothing is
    not repeated, so [String.length] of the text ahead bounds the
    number of rounds. *)
Fixpoint star_iter (step : cursor -> list cursor) (fuel : nat) (cur : cursor)
  : list cursor :=
  cur ::
  match fuel with
  | O => []
  | S fuel' =>
      flat_map
        (fun cur' => if fst cur <? fst cur' then star_iter step fuel' cur' else [])
        (step cur)
  end.

(** Every cursor at which a match of [r] begun at [cur] can end. *)
Fixpoint ends (r : regex) (cur : cursor) : list cursor :=
  match r with
  | Eps => [cur]
  | Bol => if fst cur =? 0 then [cur] else []
  | Eol => if at_eol (snd cur) then [cur] else []
  | Chr c => one_char (Ascii.eqb c) cur
  | Cls rs => one_char (in_class rs) cur
  | NCls rs => one_char (fun c => negb (in_class rs c)) cur
  | Seq r1 r2 => flat_map (ends r2) (ends r1 cur)
  | Alt r1 r2 => ends r1 cur ++ ends r2 cur
  | Star r' => star_iter (ends r') (String.length (snd cur)) cur
  end.

(** [re.match(r, s)] seen as a truth value: is there a match that
    starts at the beginning of [s]? *)
Definition re_match (r : regex) (s : string) : bool :=
  match ends r (0, s) with
  | [] => false
  | _ :: _ => true
  end.

(** [re.fullmatch(r, s)] seen as a truth value: is there a match that
    starts at the beginning and ends at the end of [s]? *)
Definition re_fullmatch (r : regex) (s : string) : bool :=
  existsb (fun cur => String.eqb (snd cur) EmptyString) (ends r (0, s)).

(** What it means for [r] to match between two cursors. *)
Inductive Matches : regex -> cursor -> cursor -> Prop :=
  | MEps cur : Matches Eps cur cur
  | MBol rest : Matches Bol (0, rest) (0, rest)
  | MEol n rest : at_eol rest = true -> Matches Eol (n, rest) (n, rest)
  | MChr n c rest : Matches (Chr c) (n, String c rest) (S n, rest)
  | MCls n rs c rest :
      in_class rs c = true -> Matches (Cls rs) (n, String c rest) (S n, rest)
  | MNCls n rs c rest :
      in_class rs c = false -> Matches (NCls rs) (n, String c rest) (S n, rest)
  | MSeq r1 r2 c1 c2 c3 :
      Matches r1 c1 c2 -> Matches r2 c2 c3 -> Matches (Seq r1 r2) c1 c3
  | MAltL r1 r2 c1 c2 : Matches r1 c1 c2 -> Matches (Alt r1 r2) c1 c2
  | MAltR r1 r2 c1 c2 : Matches r2 c1 c2 -> Matches (Alt r1 r2) c1 c2
  | MStar0 r cur : Matches (Star r) cur cur
  | MStarS r c1 c2 c3 :
      Matches r c1 c2 -> Matches (Star r) c2 c3 -> Matches (Star r) c1 c3.

End Re.

(* ================================================================== *)
(** ** [str.format] with one keyword argument

    [template.format(kw=value)] reads the template once from the left,
    the way CPython's markup iterator does: literal text is copied, a
    doubled brace stands for one brace, and [{...}] is a replacement
    field made of a field name, an optional [!conversion] and an
    optional [:format spec].  A field is looked up and rendered when its
    closing brace is read, so the first error from the left is the one
    raised. *)

Module PyFormat.

(** Rendering of a field that does more than name the argument
    (attribute or index access, a conversion other than [!s], a format
    spec) is done by the interpreter's [getattr], [repr] and
    [format]; it is taken as a parameter: keyword, value, the
    accessors after the first name, the conversion and the spec. *)
Definition renderer : Type :=
  string -> string -> string -> option ascii -> string -> outcome string.

Inductive fstate : Type :=
  | SLit                                    (* in literal text *)
  | SOpen                                   (* just read a left brace *)
  | SClose                                  (* just read a right brace *)
  | SName (name : string) (bracket : bool)  (* in a field name *)
  | SBang (name : string)                   (* just read ! *)
  | SConv (name : string) (conv : ascii)    (* just read the conversion *)
  | SSpec (name : string) (conv : option ascii) (spec : string) (nested : nat).

Definition snoc (s : string) (c : ascii) : string :=
  (s ++ String c EmptyString)%string.

Definition PY_SSIZE_T_MAX : Z := (2 ^ 63 - 1)%Z.

Definition decimal (c : ascii) : option Z :=
  if PyStr.in_range "0" "9" c
  then Some (Z.of_nat (PyStr.code c - 48))
  else None.

Fixpoint get_integer_from (acc : Z) (s : string) : outcome (option Z) :=
  match s with
  | EmptyString => Ret (Some acc)
  | String c s' =>
      match decimal c with
      | None => Ret None
      | Some d =>
          if (acc >? (PY_SSIZE_T_MAX - d) / 10)%Z
          then Raise (ValueError "Too many decimal digits in format string")
          else get_integer_from (acc * 10 + d)%Z s'
      end
  end.

(** The index a field name denotes, if it is a number. *)
Definition get_integer (s : string) : outcome (option Z) :=
  match s with
  | EmptyString => Ret None
  | String _ _ => get_integer_from 0%Z s
  end.

(** The first part of a field name ends at the first [.] or [[]. *)
Fixpoint field_name_split (name : string) : string * string :=
  match name with
  | EmptyString => (EmptyString, EmptyString)
  | String c rest =>
      if Ascii.eqb c "." || Ascii.eqb c "["
      then (EmptyString, name)
      else let (first, accessors) := field_name_split rest in
           (String c first, accessors)
  end.

(** An omitted or numeric name indexes the positional arguments, of
    which there are none; any other name is looked up among the
    keywords. *)
Definition get_field_object (kw value first : string) : outcome string :=
  match get_integer first with
  | Raise e => Raise e
  | Ret idx =>
      match first, idx with
      | EmptyString, _ | _, Some _ =>
          Raise (IndexError "Replacement index out of range for positional args tuple")
      | _, None =>
          if String.eqb first kw then Ret value else Raise (KeyError first)
      end
  end.

Definition plain_conversion (conv : option ascii) : bool :=
  match conv with
  | None => true
  | Some c => Ascii.eqb c "s"
  end.

Definition render_field (rt : renderer) (kw value name : string)
           (conv : option ascii) (spec : string) : outcome string :=
  let (first, accessors) := field_name_split name in
  match get_field_object kw value first with
  | Raise e => Raise e
  | Ret obj =>
      if String.eqb accessors EmptyString && plain_conversion conv
         && String.eqb spec EmptyString
      then Ret obj
      else rt kw value accessors conv spec
  end.

Fixpoint scan (rt : renderer) (kw value : string)
         (st : fstate) (out : string) (s : string) : outcome string :=
  match s with
  | EmptyString =>
      match st with
      | SLit => Ret out
      | SOpen => Raise (ValueError "Single '{' encountered in format string")
      | SClose => Raise (ValueError "Single '}' encountered in format string")
      | SName _ _ => Raise (ValueError "expected '}' before end of string")
      | SBang _ =>
          Raise (ValueError "end of string while looking for conversion specifier")
      | SConv _ _ | SSpec _ _ _ _ =>
          Raise (ValueError "unmatched '{' in format spec")
      end
  | String c s' =>
      let emit name conv spec :=
        match render_field rt kw value name conv spec with
        | Raise e => Raise e
        | Ret txt => scan rt kw value SLit (out ++ txt)%string s'
        end in
      let in_name name :=
        if Ascii.eqb c "{" then Raise (ValueError "unexpected '{' in field name")
        else if Ascii.eqb c "[" then scan rt kw value (SName (snoc name c) true) out s'
        else if Ascii.eqb c "}" then emit name None EmptyString
        else if Ascii.eqb c ":" then scan rt kw value (SSpec name None EmptyString 0) out s'
        else if Ascii.eqb c "!" then scan rt kw value (SBang name) out s'
        else scan rt kw value (SName (snoc name c) false) out s' in
      match st with
      | SLit =>
          if Ascii.eqb c "{" then scan rt kw value SOpen out s'
          else if Ascii.eqb c "}" then scan rt kw value SClose out s'
          else scan rt kw value SLit (snoc out c) s'
      | SOpen =>
          if Ascii.eqb c "{" then scan rt kw value SLit (snoc out c) s'
          else in_name EmptyString
      | SClose =>
          if Ascii.eqb c "}" then scan rt kw value SLit (snoc out c) s'
          else Raise (ValueError "Single '}' encountered in format string")
      | SName name true =>
          scan rt kw value (SName (snoc name c) (negb (Ascii.eqb c "]"))) out s'
      | SName name false => in_name name
      | SBang name => scan rt kw value (SConv name c) out s'
      | SConv name conv =>
          if Ascii.eqb c "}" then emit name (Some conv) EmptyString
          else if Ascii.eqb c ":"
          then scan rt kw value (SSpec name (Some conv) EmptyString 0) out s'
          else Raise (ValueError "expected ':' after conversion specifier")
      | SSpec name conv spec nested =>
          if Ascii.eqb c "{"
          then scan rt kw value (SSpec name conv (snoc spec c) (S nested)) out s'
          else if Ascii.eqb c "}"
          then match nested with
               | O => emit name conv spec
               | S n => scan rt kw value (SSpec name conv (snoc spec c) n) out s'
               end
          else scan rt kw value (SSpec name conv (snoc spec c) nested) out s'
      end
  end.

(** [template.format(kw=value)] *)
Definition format (rt : renderer) (template kw value : string) : outcome string :=
  scan rt kw value SLit EmptyString template.

(** A renderer that refuses every field it is asked to render. *)
Definition no_renderer : renderer :=
  fun _ _ _ _ _ => Raise (ValueError "Invalid format specifier").

End PyFormat.

(* ================================================================== *)
(** ** Computations: what is logged and called, and how it ends *)

Inductive search_scope : Type := BASE | LEVEL | SUBTREE.

(** [ldap3.Connection(ldap3.Server(address, port, use_ssl), user, password)] *)
Record connection : Type := Connection {
  conn_address : string;
  conn_port : Z;
  conn_use_ssl : bool;
  conn_user : string;
  conn_password : string
}.

Inductive event : Type :=
  | LogWarn (msg : string)
  | LogInfo (msg : string) (args : list string)
  | LdapBind (conn : connection)
  | LdapSearch (conn : connection) (base : string) (scope : search_scope)
               (filter : string) (attributes : list string)
  | ProcessStart (cmd : list string)
  | Sleep (seconds : nat).

Definition is_directory_op (ev : event) : bool :=
  match ev with
  | LdapBind _ | LdapSearch _ _ _ _ _ => true
  | _ => false
  end.

Definition is_search (ev : event) : bool :=
  match ev with
  | LdapSearch _ _ _ _ _ => true
  | _ => false
  end.

(** A computation ends by returning or raising, and leaves the events it
    caused, oldest first. *)
Definition M (A : Type) : Type := outcome A * list event.

Definition ret {A} (a : A) : M A := (Ret a, []).

Definition raise {A} (e : exn) : M A := (Raise e, []).

Definition bind {A B} (m : M A) (k : A -> M B) : M B :=
  match m with
  | (Ret a, evs) => let (r, evs') := k a in (r, evs ++ evs')
  | (Raise e, evs) => (Raise e, evs)
  end.

(** A call without effects that may raise. *)
Definition lift {A} (o : outcome A) : M A := (o, []).

(** A call to the outside: the event, then the outcome it had. *)
Definition call {A} (ev : event) (o : outcome A) : M A := (o, [ev]).

Definition emit (ev : event) : M unit := (Ret tt, [ev]).

Notation "x <- m ;; k" := (bind m (fun x => k))
  (at level 61, m at next level, right associativity).
Notation "m ;;; k" := (bind m (fun _ => k))
  (at level 61, right associativity).

Definition result {A} (m : M A) : outcome A := fst m.
Definition trace {A} (m : M A) : list event := snd m.
Definition directory_ops {A} (m : M A) : list event :=
  filter is_directory_op (trace m).
Definition searches {A} (m : M A) : list event :=
  filter is_search (trace m).

(* ================================================================== *)
(** ** The authenticator's configuration *)

Record LDAPAuthenticator : Type := {
  server_address : string;
  server_port : option Z;             (* [None]: left to its default *)
  use_ssl : bool;
  bind_dn_template : string;
  allowed_groups : list string;
  valid_username_regex : Re.regex;
  add_local_user : bool;
  add_user_cmd : list string
}.

Definition _server_port_default (self : LDAPAuthenticator) : Z :=
  if use_ssl self then 636%Z else 389%Z.

Definition port (self : LDAPAuthenticator) : Z :=
  match server_port self with
  | Some p => p
  | None => _server_port_default self
  end.

(** [^[a-z][.a-z0-9_-]*$] *)
Definition default_username_regex : Re.regex :=
  Re.Seq Re.Bol
    (Re.Seq (Re.Cls [("a", "z")])
       (Re.Seq (Re.Star (Re.Cls [(".", "."); ("a", "z"); ("0", "9");
                                 ("_", "_"); ("-", "-")]))
          Re.Eol))%char.

Definition two_quotes : string :=
  String (ascii_of_nat 34) (String (ascii_of_nat 34) EmptyString).

Definition _add_user_cmd_default : list string :=
  ["adduser"; "-q"; "--force-badname"; "--gecos"; two_quotes; "--disabled-password"].

(** The traits at their defaults, for a given server and template. *)
Definition default_config (address template : string) : LDAPAuthenticator :=
  {| server_address := address;
     server_port := None;
     use_ssl := true;
     bind_dn_template := template;
     allowed_groups := [];
     valid_username_regex := default_username_regex;
     add_local_user := false;
     add_user_cmd := _add_user_cmd_default |}.

(** Characters with a meaning in a distinguished name or in a search
    filter: parentheses, asterisk, backslash and NUL in filters; comma,
    plus, double quote, angle brackets, semicolon and equals in names. *)
Definition query_syntax_char (c : ascii) : bool :=
  existsb (Nat.eqb (PyStr.code c)) [0; 34; 40; 41; 42; 43; 44; 59; 60; 61; 62; 92].

(* ================================================================== *)
(** ** [authenticate] *)

(** The directory as the authenticator sees it through [ldap3]: a bind
    and a search each answer yes or no, or raise (the socket cannot be
    opened, TLS fails, the peer hangs up). *)
Record directory : Type := {
  ldap_bind : connection -> outcome bool;
  ldap_search : connection -> string -> search_scope -> string -> list string
                -> outcome bool
}.

(** The form data handed over by the login handler. *)
Record login_data : Type := {
  username : string;
  password : option string            (* [None] is Python's [None] *)
}.

Section Authenticate.

Variable rt : PyFormat.renderer.
Variable self : LDAPAuthenticator.
Variable dir : directory.

(** The resolved distinguished name:
    [self.bind_dn_template.format(username=username)]. *)
Definition userdn (username : string) : outcome string :=
  PyFormat.format rt (bind_dn_template self) "username" username.

(** [ldap3.Server(...)] and [ldap3.Connection(server, user=userdn,
    password=password)]: nothing is sent before [bind]. *)
Definition connect (userdn password : string) : connection :=
  Connection (server_address self) (port self) (use_ssl self) userdn password.

Definition conn_bind (conn : connection) : M bool :=
  call (LdapBind conn) (ldap_bind dir conn).

Definition conn_search (conn : connection) (base : string) (scope : search_scope)
           (filter : string) (attributes : list string) : M bool :=
  call (LdapSearch conn base scope filter attributes)
       (ldap_search dir conn base scope filter attributes).

Definition search_filter (userdn : string) : outcome string :=
  PyFormat.format rt "(member={userdn})" "userdn" userdn.

(** The [for group in self.allowed_groups] loop: return at the first
    hit; when the list runs out the function ends without a [return],
    which is [None]. *)
Fixpoint check_groups (conn : connection) (userdn username : string)
         (groups : list string) : M (option string) :=
  match groups with
  | [] => ret None
  | group :: groups' =>
      filter <- lift (search_filter userdn) ;;
      found <- conn_search conn group BASE filter ["member"] ;;
      if found then ret (Some username)
      else check_groups conn userdn username groups'
  end.

(** [authenticate] is a coroutine: what is modelled is what the future
    it hands back resolves to, a result or an exception, as its caller
    sees it at [yield]. *)
Definition authenticate (data : login_data) : M (option string) :=
  let username := username data in
  let password := password data in
  if negb (Re.re_match (valid_username_regex self) username) then
    emit (LogWarn "Invalid username") ;;; ret None
  else
    match password with
    | None => emit (LogWarn "Empty password") ;;; ret None
    | Some password =>
        if String.eqb (PyStr.strip password) EmptyString then
          emit (LogWarn "Empty password") ;;; ret None
        else
          userdn <- lift (userdn username) ;;
          let conn := connect userdn password in
          bound <- conn_bind conn ;;
          if bound then
            match allowed_groups self with
            | _ :: _ => check_groups conn userdn username (allowed_groups self)
            | [] => ret (Some username)
            end
          else
            emit (LogWarn "Invalid password") ;;; ret None
    end.

End Authenticate.

(* ================================================================== *)
(** ** [pre_spawn_start] *)

(** What the operating system makes of a command once it has run to its
    end. *)
Record process : Type := {
  exit_status : Z;
  output : string                     (* stdout and stderr, merged *)
}.

(** The machine the hub runs on: the names in the password database, and
    what starting a command leads to. *)
Record host : Type := {
  passwd : list string;
  spawn : list string -> outcome process
}.

(** A [subprocess.Popen] object.  Its constructor starts the child and
    sets [returncode] to [None]; the attribute changes only when [poll],
    [wait] or [communicate] is called on the object. *)
Record popen : Type := {
  child : process;
  returncode : option Z
}.

Definition Popen (h : host) (cmd : list string) : M popen :=
  call (ProcessStart cmd)
       (match spawn h cmd with
        | Ret pr => Ret {| child := pr; returncode := None |}
        | Raise e => Raise e
        end).

(** [p.wait()]: block until the child has ended and record its status. *)
Definition Popen_wait (p : popen) : popen :=
  {| child := child p; returncode := Some (exit_status (child p)) |}.

(** [p.stdout.read().decode('utf8', 'replace')] *)
Definition stdout_read (p : popen) : string := output (child p).

(** Truth value of [p.returncode]: [None] and [0] are false. *)
Definition truthy (rc : option Z) : bool :=
  match rc with
  | None => false
  | Some z => negb (z =? 0)%Z
  end.

(** [pwd.getpwnam(name)] *)
Definition getpwnam (h : host) (name : string) : outcome unit :=
  if existsb (String.eqb name) (passwd h) then Ret tt
  else Raise (KeyError ("getpwnam(): name not found: " ++ name)).

(** [[arg.replace('USERNAME', name) for arg in self.add_user_cmd] + [name]] *)
Definition user_cmd (self : LDAPAuthenticator) (name : string) : list string :=
  map (PyStr.replace "USERNAME" name) (add_user_cmd self) ++ [name].

Definition failure_message (name err : string) : string :=
  ("Failed to create system user " ++ name ++ ": " ++ err)%string.

Section PreSpawnStart.

Variable self : LDAPAuthenticator.
Variable h : host.

(** The body of the [except KeyError] branch.  The log entry keeps the
    command as a list; its shell quoting for display is left out. *)
Definition create_user (name : string) : M unit :=
  let cmd := user_cmd self name in
  emit (LogInfo "Creating user: %s" cmd) ;;;
  p <- Popen h cmd ;;
  emit (Sleep 5) ;;;
  if truthy (returncode p) then
    let err := stdout_read p in
    raise (RuntimeError (failure_message name err))
  else ret tt.

Definition pre_spawn_start (name : string) : M unit :=
  if add_local_user self then
    match getpwnam h name with
    | Ret _ => ret tt
    | Raise (KeyError _) => create_user name
    | Raise e => raise e
    end
  else ret tt.

(** The hook as the specification words it: wait for the command to
    end, then look at its exit status. *)
Definition ensure_local_account (name : string) : M unit :=
  if add_local_user self then
    match getpwnam h name with
    | Ret _ => ret tt
    | Raise (KeyError _) =>
        let cmd := user_cmd self name in
        emit (LogInfo "Creating user: %s" cmd) ;;;
        p <- Popen h cmd ;;
        let p := Popen_wait p in
        if truthy (returncode p) then
          raise (RuntimeError (failure_message name (stdout_read p)))
        else ret tt
    | Raise e => raise e
    end
  else ret tt.

End PreSpawnStart.

(* ================================================================== *)
(** ** Vocabulary of the statements *)

(** A string read as literal text interleaved with occurrences of a
    token: a template with its [{username}] placeholders, a command
    argument with its [USERNAME] tokens. *)
Inductive piece : Type :=
  | Text (s : string)
  | Placeholder.

(** The string one gets by writing [token] at every placeholder. *)
Fixpoint join (token : string) (ps : list piece) : string :=
  match ps with
  | [] => EmptyString
  | Text s :: ps' => (s ++ join token ps')%string
  | Placeholder :: ps' => (token ++ join token ps')%string
  end.

Definition template_of (ps : list piece) : string := join "{username}" ps.

(** The template with the name written in place of each placeholder. *)
Definition fill (ps : list piece) (name : string) : string := join name ps.

(** The literal text of a piece does not use character [c]. *)
Definition lacks (c : ascii) (p : piece) : bool :=
  match p with
  | Text s => negb (PyStr.has_char (Ascii.eqb c) s)
  | Placeholder => true
  end.

Definition is_brace (c : ascii) : bool := Ascii.eqb c "{" || Ascii.eqb c "}".

Definition brace_free (p : piece) : bool :=
  match p with
  | Text s => negb (PyStr.has_char is_brace s)
  | Placeholder => true
  end.

(** The password is [None] or nothing is left of it after [strip]. *)
Definition blank (password : option string) : Prop :=
  password = None \/ exists p, password = Some p /\ PyStr.strip p = EmptyString.

(** The filter of the membership search for a distinguished name. *)
Definition member_filter (dn : string) : string :=
  ("(member=" ++ dn ++ ")")%string.

(** The search [authenticate] issues for one group. *)
Definition group_search (conn : connection) (group : string) : event :=
  LdapSearch conn group BASE (member_filter (conn_user conn)) ["member"].

(** What the directory answers to that search. *)
Definition group_answer (dir : directory) (conn : connection) (group : string)
  : outcome bool :=
  ldap_search dir conn group BASE (member_filter (conn_user conn)) ["member"].

(* ================================================================== *)
(** ** Worked inputs *)

Definition example_template : string :=
  "uid={username},ou=people,dc=example,dc=org".

Definition example_config : LDAPAuthenticator :=
  default_config "ldap.example.org" example_template.

Definition with_template (self : LDAPAuthenticator) (template : string)
  : LDAPAuthenticator :=
  {| server_address := server_address self;
     server_port := server_port self;
     use_ssl := use_ssl self;
     bind_dn_template := template;
     allowed_groups := allowed_groups self;
     valid_username_regex := valid_username_regex self;
     add_local_user := add_local_user self;
     add_user_cmd := add_user_cmd self |}.

Definition with_groups (self : LDAPAuthenticator) (groups : list string)
  : LDAPAuthenticator :=
  {| server_address := server_address self;
     server_port := server_port self;
     use_ssl := use_ssl self;
     bind_dn_template := bind_dn_template self;
     allowed_groups := groups;
     valid_username_regex := valid_username_regex self;
     add_local_user := add_local_user self;
     add_user_cmd := add_user_cmd self |}.

Definition with_regex (self : LDAPAuthenticator) (r : Re.regex)
  : LDAPAuthenticator :=
  {| server_address := server_address self;
     server_port := server_port self;
     use_ssl := use_ssl self;
     bind_dn_template := bind_dn_template self;
     allowed_groups := allowed_groups self;
     valid_username_regex := r;
     add_local_user := add_local_user self;
     add_user_cmd := add_user_cmd self |}.

Definition with_add_user (self : LDAPAuthenticator) (cmd : list string)
  : LDAPAuthenticator :=
  {| server_address := server_address self;
     server_port := server_port self;
     use_ssl := use_ssl self;
     bind_dn_template := bind_dn_template self;
     allowed_groups := allowed_groups self;
     valid_username_regex := valid_username_regex self;
     add_local_user := true;
     add_user_cmd := cmd |}.

Definition river : login_data :=
  {| username := "river"; password := Some "secret" |}.

(** A directory that accepts every bind and lists the user in the given
    groups. *)
Definition accepting (member_of : list string) : directory :=
  {| ldap_bind := fun _ => Ret true;
     ldap_search := fun _ base _ _ _ => Ret (existsb (String.eqb base) member_of) |}.

(** A directory that refuses every bind. *)
Definition refusing : directory :=
  {| ldap_bind := fun _ => Ret false;
     ldap_search := fun _ _ _ _ _ => Ret false |}.

(** A directory that cannot be reached: opening the socket fails. *)
Definition unreachable : directory :=
  {| ldap_bind := fun _ => Raise (LDAPException "socket connection error while opening");
     ldap_search := fun _ _ _ _ _ =>
                      Raise (LDAPException "socket connection error while opening") |}.

(** A name that carries filter syntax behind a lowercase prefix. *)
Definition injected : login_data :=
  {| username := "river)(uid=*"; password := Some "secret" |}.

(** A name that ends in a newline. *)
Definition river_newline : login_data :=
  {| username := String "r" (String Re.newline EmptyString);
     password := Some "secret" |}.

(** [[a-z]+], a pattern without anchors. *)
Definition lowercase_run : Re.regex := Re.plus (Re.Cls [("a", "z")]%char).

(** A machine without an account for the user, on which the account
    command ends with status 1. *)
Definition adduser_fails : host :=
  {| passwd := ["root"];
     spawn := fun _ => Ret {| exit_status := 1; output := "adduser: Permission denied" |} |}.

(* ================================================================== *)
(** ** The runs of [authenticate] *)

(** The credential passed both checks and the name was resolved. *)
Definition resolved (rt : PyFormat.renderer) (self : LDAPAuthenticator)
           (data : login_data) (pw dn : string) : Prop :=
  Re.re_match (valid_username_regex self) (username data) = true
  /\ password data = Some pw
  /\ PyStr.strip pw <> EmptyString
  /\ userdn rt self (username data) = Ret dn.

(** The ways through [authenticate], each with the result and the trace
    it leaves: the two early returns, the template that does not
    format, and, once a connection is built, the outcomes of the bind
    and of the group loop. *)
Inductive Run (rt : PyFormat.renderer) (self : LDAPAuthenticator)
          (dir : directory) (data : login_data) (m : M (option string)) : Prop :=
  | RunInvalidUsername :
      Re.re_match (valid_username_regex self) (username data) = false ->
      m = (Ret None, [LogWarn "Invalid username"]) ->
      Run rt self dir data m
  | RunEmptyPassword :
      Re.re_match (valid_username_regex self) (username data) = true ->
      blank (password data) ->
      m = (Ret None, [LogWarn "Empty password"]) ->
      Run rt self dir data m
  | RunTemplateError pw e :
      Re.re_match (valid_username_regex self) (username data) = true ->
      password data = Some pw ->
      PyStr.strip pw <> EmptyString ->
      userdn rt self (username data) = Raise e ->
      m = (Raise e, []) ->
      Run rt self dir data m
  | RunBindError pw dn e :
      resolved rt self data pw dn ->
      ldap_bind dir (connect self dn pw) = Raise e ->
      m = (Raise e, [LdapBind (connect self dn pw)]) ->
      Run rt self dir data m
  | RunBindRefused pw dn :
      resolved rt self data pw dn ->
      ldap_bind dir (connect self dn pw) = Ret false ->
      m = (Ret None, [LdapBind (connect self dn pw); LogWarn "Invalid password"]) ->
      Run rt self dir data m
  | RunNoGroups pw dn :
      resolved rt self data pw dn ->
      ldap_bind dir (connect self dn pw) = Ret true ->
      allowed_groups self = [] ->
      m = (Ret (Some (username data)), [LdapBind (connect self dn pw)]) ->
      Run rt self dir data m
  | RunNoMatch pw dn :
      resolved rt self data pw dn ->
      ldap_bind dir (connect self dn pw) = Ret true ->
      allowed_groups self <> [] ->
      (forall g, In g (allowed_groups self) ->
                 group_answer dir (connect self dn pw) g = Ret false) ->
      m = (Ret None,
           LdapBind (connect self dn pw)
           :: map (group_search (connect self dn pw)) (allowed_groups self)) ->
      Run rt self dir data m
  | RunMatch pw dn pre g post :
      resolved rt self data pw dn ->
      ldap_bind dir (connect self dn pw) = Ret true ->
      allowed_groups self = pre ++ g :: post ->
      (forall g', In g' pre -> group_answer dir (connect self dn pw) g' = Ret false) ->
      group_answer dir (connect self dn pw) g = Ret true ->
      m = (Ret (Some (username data)),
           LdapBind (connect self dn pw)
           :: map (group_search (connect self dn pw)) (pre ++ [g])) ->
      Run rt self dir data m
  | RunSearchError pw dn pre g post e :
      resolved rt self data pw dn ->
      ldap_bind dir (connect self dn pw) = Ret true ->
      allowed_groups self = pre ++ g :: post ->
      (forall g', In g' pre -> group_answer dir (connect self dn pw) g' = Ret false) ->
      group_answer dir (connect self dn pw) g = Raise e ->
      m = (Raise e,
           LdapBind (connect self dn pw)
           :: map (group_search (connect self dn pw)) (pre ++ [g])) ->
      Run rt self dir data m.

(** Characters with a meaning in a search filter: NUL, parentheses,
    asterisk and backslash. *)
Definition filter_syntax_char (c : ascii) : bool :=
  existsb (Nat.eqb (PyStr.code c)) [0; 40; 41; 42; 92].

(** The literal text of a piece uses no filter syntax. *)
Definition filter_safe (p : piece) : bool :=
  match p with
  | Text s => negb (PyStr.has_char filter_syntax_char s)
  | Placeholder => true
  end.

(** The warnings [authenticate] can write. *)
Definition warnings : list string :=
  ["Invalid username"; "Empty password"; "Invalid password"].

(** A directory in which the search on one group fails on the wire. *)
Definition failing_search (broken : string) : directory :=
  {| ldap_bind := fun _ => Ret true;
     ldap_search := fun _ base _ _ _ =>
                      if String.eqb base broken
                      then Raise (LDAPException "socket receive error")
                      else Ret false |}.

(** A machine on which the account command cannot be started. *)
Definition no_adduser : host :=
  {| passwd := ["root"];
     spawn := fun _ => Raise (OSError "No such file or directory: 'adduser'") |}.

(** A machine that already has the account. *)
Definition has_river : host :=
  {| passwd := ["root"; "river"];
     spawn := fun _ => Ret {| exit_status := 0; output := EmptyString |} |}.

(** The events that start a process. *)
Definition is_process_start (ev : event) : bool :=
  match ev with
  | ProcessStart _ => true
  | _ => false
  end.

(* ================================================================== *)
(** * Properties *)

(** ** Strings *)

Lemma all_chars_app p s1 s2 :
  PyStr.all_chars p (s1 ++ s2)%string = PyStr.all_chars p s1 && PyStr.all_chars p s2.
Proof.
  induction s1 as [|c s1 IH]; simpl; [reflexivity|].
  now rewrite IH, andb_assoc.
Qed.

Lemma has_char_app p s1 s2 :
  PyStr.has_char p (s1 ++ s2)%string = PyStr.has_char p s1 || PyStr.has_char p s2.
Proof.
  induction s1 as [|c s1 IH]; simpl; [reflexivity|].
  now rewrite IH, orb_assoc.
Qed.

Lemma has_char_none p q s :
  (forall c, p c = true -> q c = false) ->
  PyStr.all_chars p s = true -> PyStr.has_char q s = false.
Proof.
  intros Hpq. induction s as [|c s IH]; simpl; [reflexivity|].
  intros H. apply andb_true_iff in H as [Hc Hs].
  now rewrite (Hpq c Hc), (IH Hs).
Qed.

Lemma append_nil_r (s : string) : (s ++ "")%string = s.
Proof. induction s; simpl; congruence. Qed.

Lemma length_append (s1 s2 : string) :
  String.length (s1 ++ s2) = String.length s1 + String.length s2.
Proof. induction s1; simpl; congruence. Qed.

Lemma append_assoc (s1 s2 s3 : string) :
  ((s1 ++ s2) ++ s3)%string = (s1 ++ (s2 ++ s3))%string.
Proof. induction s1; simpl; congruence. Qed.

(** ** [strip] *)

Lemma lstrip_empty (s : string) :
  PyStr.lstrip s = EmptyString <-> PyStr.all_chars PyStr.is_space s = true.
Proof.
  induction s as [|c s IH]; simpl; [tauto|].
  destruct (PyStr.is_space c); simpl; [exact IH|].
  split; discriminate.
Qed.

Lemma lstrip_fixed (s : string) :
  PyStr.all_chars PyStr.is_space (PyStr.lstrip s) = true ->
  PyStr.lstrip s = EmptyString.
Proof.
  induction s as [|c s IH]; simpl; [reflexivity|].
  destruct (PyStr.is_space c) eqn:Hc; [exact IH|].
  simpl. now rewrite Hc.
Qed.

Lemma all_chars_forallb p (s : string) :
  PyStr.all_chars p s = forallb p (list_ascii_of_string s).
Proof. induction s; simpl; congruence. Qed.

Lemma all_chars_rev p (s : string) :
  PyStr.all_chars p (PyStr.rev s) = PyStr.all_chars p s.
Proof.
  unfold PyStr.rev.
  rewrite !all_chars_forallb, list_ascii_of_string_of_list_ascii.
  destruct (forallb p (list_ascii_of_string s)) eqn:H.
  - apply forallb_forall. intros c Hc. apply in_rev in Hc.
    now apply (proj1 (forallb_forall _ _) H).
  - destruct (forallb p (List.rev (list_ascii_of_string s))) eqn:H'; [|reflexivity].
    rewrite <- H. symmetry. apply forallb_forall. intros c Hc.
    apply (proj1 (forallb_forall _ _) H'). now apply in_rev in Hc.
Qed.

Lemma rev_empty (s : string) : PyStr.rev s = EmptyString -> s = EmptyString.
Proof.
  unfold PyStr.rev. intros H.
  apply (f_equal list_ascii_of_string) in H.
  rewrite list_ascii_of_string_of_list_ascii in H. simpl in H.
  destruct s as [|c s]; [reflexivity|].
  simpl in H. now apply app_eq_nil in H as [_ H].
Qed.

(** Nothing is left after [strip] exactly when the string is made of
    whitespace. *)
Theorem strip_empty (s : string) :
  PyStr.strip s = EmptyString <-> PyStr.all_chars PyStr.is_space s = true.
Proof.
  unfold PyStr.strip, PyStr.rstrip. split.
  - intros H. apply rev_empty in H. apply lstrip_empty in H.
    rewrite all_chars_rev in H. apply lstrip_empty. now apply lstrip_fixed.
  - intros H. apply lstrip_empty in H. now rewrite H.
Qed.

(** ** The matcher finds only matches *)

Lemma one_char_sound p cur cur' :
  In cur' (Re.one_char p cur) ->
  exists c rest, cur = (fst cur, String c rest) /\ p c = true
                 /\ cur' = (S (fst cur), rest).
Proof.
  destruct cur as [n [|c rest]]; simpl; [tauto|].
  unfold Re.one_char; simpl.
  destruct (p c) eqn:Hp; simpl; [|tauto].
  intros [<-|[]]. now exists c, rest.
Qed.

Lemma star_iter_sound (step : Re.cursor -> list Re.cursor) (r : Re.regex) :
  (forall c c', In c' (step c) -> Re.Matches r c c') ->
  forall fuel c c', In c' (Re.star_iter step fuel c) -> Re.Matches (Re.Star r) c c'.
Proof.
  intros Hstep. induction fuel as [|fuel IH]; intros c c'; simpl.
  - intros [<-|[]]. constructor.
  - intros [<-|H]; [constructor|].
    apply in_flat_map in H as (c2 & Hin & Hrest).
    destruct (fst c <? fst c2); [|contradiction].
    eapply Re.MStarS; eauto.
Qed.

Theorem ends_sound (r : Re.regex) :
  forall c c', In c' (Re.ends r c) -> Re.Matches r c c'.
Proof.
  induction r as [| | |a|rs|rs|r1 IH1 r2 IH2|r1 IH1 r2 IH2|r IH];
    intros [n s] c'; simpl.
  - intros [<-|[]]. constructor.
  - destruct n; simpl; [|tauto]. intros [<-|[]]. constructor.
  - destruct (Re.at_eol s) eqn:He; simpl; [|tauto].
    intros [<-|[]]. now constructor.
  - intros H. apply one_char_sound in H as (c & rest & Hc & Hp & ->).
    simpl in *. injection Hc as ->. apply Ascii.eqb_eq in Hp as ->. constructor.
  - intros H. apply one_char_sound in H as (c & rest & Hc & Hp & ->).
    simpl in *. injection Hc as ->. now constructor.
  - intros H. apply one_char_sound in H as (c & rest & Hc & Hp & ->).
    simpl in *. injection Hc as ->. constructor. now apply negb_true_iff.
  - intros H. apply in_flat_map in H as (c2 & H1 & H2).
    econstructor; eauto.
  - intros H. apply in_app_or in H as [H|H].
    + apply Re.MAltL; auto.
    + apply Re.MAltR; auto.
  - apply star_iter_sound. exact IH.
Qed.

(** ** The matcher finds every match *)

(** A match consumes a piece of the text ahead and counts it. *)
Lemma matches_consumes r c1 c2 :
  Re.Matches r c1 c2 ->
  exists w, snd c1 = (w ++ snd c2)%string /\ fst c2 = fst c1 + String.length w.
Proof.
  induction 1 as [cur|rest|n rest He|n c rest|n rs c rest Hc|n rs c rest Hc
                  |r1 r2 c1 c2 c3 _ [w1 [E1 L1]] _ [w2 [E2 L2]]
                  |r1 r2 c1 c2 _ IH|r1 r2 c1 c2 _ IH
                  |r cur|r c1 c2 c3 _ [w1 [E1 L1]] _ [w2 [E2 L2]]];
    try (exists EmptyString; split; [reflexivity|simpl; lia]);
    try (exists (String c EmptyString); split; [reflexivity|simpl; lia]);
    try exact IH.
  - exists (w1 ++ w2)%string. rewrite E1, E2, append_assoc. split; [reflexivity|].
    rewrite length_append. lia.
  - exists (w1 ++ w2)%string. rewrite E1, E2, append_assoc. split; [reflexivity|].
    rewrite length_append. lia.
Qed.

Lemma matches_no_progress r c1 c2 :
  Re.Matches r c1 c2 -> fst c2 <= fst c1 -> c2 = c1.
Proof.
  intros H Hle. destruct (matches_consumes H) as (w & E & L).
  destruct w as [|a w]; [|simpl in L; lia].
  destruct c1, c2; simpl in *. f_equal; [lia|congruence].
Qed.

Lemma matches_progress r c1 c2 :
  Re.Matches r c1 c2 -> fst c1 < fst c2 ->
  String.length (snd c2) < String.length (snd c1).
Proof.
  intros H Hlt. destruct (matches_consumes H) as (w & E & L).
  rewrite E, length_append. lia.
Qed.

Lemma star_iter_head step fuel cur : In cur (Re.star_iter step fuel cur).
Proof. destruct fuel; now left. Qed.

Lemma star_iter_more_fuel step fuel :
  forall fuel' cur c,
    fuel <= fuel' -> In c (Re.star_iter step fuel cur) ->
    In c (Re.star_iter step fuel' cur).
Proof.
  induction fuel as [|fuel IH]; intros fuel' cur c Hle Hin.
  - destruct Hin as [<-|[]]. apply star_iter_head.
  - destruct fuel' as [|fuel']; [lia|].
    cbn [Re.star_iter] in *. destruct Hin as [<-|Hin]; [now left|]. right.
    apply in_flat_map in Hin as (c2 & H2 & Hc).
    apply in_flat_map. exists c2. split; [exact H2|].
    destruct (fst cur <? fst c2); [|exact Hc].
    apply IH; [lia|exact Hc].
Qed.

Theorem ends_complete r c1 c2 :
  Re.Matches r c1 c2 -> In c2 (Re.ends r c1).
Proof.
  induction 1 as [cur|rest|n rest He|n c rest|n rs c rest Hc|n rs c rest Hc
                  |r1 r2 c1 c2 c3 _ IH1 _ IH2
                  |r1 r2 c1 c2 _ IH|r1 r2 c1 c2 _ IH
                  |r cur|r c1 c2 c3 H1 IH1 H2 IH2]; cbn [Re.ends].
  - now left.
  - now left.
  - cbn [snd]. rewrite He. now left.
  - unfold Re.one_char. cbn [snd fst]. rewrite Ascii.eqb_refl. now left.
  - unfold Re.one_char. cbn [snd fst]. rewrite Hc. now left.
  - unfold Re.one_char. cbn [snd fst]. rewrite Hc. now left.
  - apply in_flat_map. eauto.
  - apply in_or_app. now left.
  - apply in_or_app. now right.
  - apply star_iter_head.
  - cbn [Re.ends] in IH2.
    destruct (Nat.lt_ge_cases (fst c1) (fst c2)) as [Hlt|Hge].
    + pose proof (matches_progress H1 Hlt) as Hlen.
      destruct (String.length (snd c1)) as [|fuel] eqn:Hf; [lia|].
      cbn [Re.star_iter]. right. apply in_flat_map. exists c2. split; [exact IH1|].
      apply Nat.ltb_lt in Hlt. rewrite Hlt.
      eapply star_iter_more_fuel; [|exact IH2]. lia.
    + rewrite <- (matches_no_progress H1 Hge). exact IH2.
Qed.

(** [re_match] holds exactly when some match starts at the beginning. *)
Theorem re_match_iff r s :
  Re.re_match r s = true <-> exists c', Re.Matches r (0, s) c'.
Proof.
  split.
  - unfold Re.re_match.
    destruct (Re.ends r (0, s)) as [|c' l] eqn:He; [discriminate|].
    intros _. exists c'. apply ends_sound. rewrite He. now left.
  - intros [c' H]. apply ends_complete in H. unfold Re.re_match.
    destruct (Re.ends r (0, s)); [destruct H|reflexivity].
Qed.

(** A starred class consumes a run of characters of the class. *)
Lemma matches_star_cls rs c1 c2 :
  Re.Matches (Re.Star (Re.Cls rs)) c1 c2 ->
  exists body, snd c1 = (body ++ snd c2)%string
               /\ PyStr.all_chars (Re.in_class rs) body = true.
Proof.
  intros H. remember (Re.Star (Re.Cls rs)) as r eqn:Hr.
  induction H; try discriminate.
  - exists EmptyString. now split.
  - injection Hr as ->. specialize (IHMatches2 eq_refl).
    destruct IHMatches2 as (body & Hb & Hall).
    inversion H as [| | | |n rs' c rest Hin| | | | | |]; subst. simpl in *.
    exists (String c body). simpl. rewrite Hb. split; [reflexivity|].
    now rewrite Hin.
Qed.

(** What the default pattern accepts: a lowercase letter, a run of
    lowercase letters, digits, [.], [_] and [-], and then the end of the
    string or one final newline. *)
Theorem default_regex_shape (u : string) :
  Re.re_match default_username_regex u = true ->
  exists c body tail,
    u = String c (body ++ tail)
    /\ Re.in_class [("a", "z")]%char c = true
    /\ PyStr.all_chars
         (Re.in_class [(".", "."); ("a", "z"); ("0", "9"); ("_", "_"); ("-", "-")]%char)
         body = true
    /\ (tail = EmptyString \/ tail = String Re.newline EmptyString).
Proof.
  intros H. apply re_match_iff in H as (c' & H).
  unfold default_username_regex in H.
  inversion H as [| | | | | |r1 r2 k1 k2 k3 Hbol H1| | | |]; subst; clear H.
  inversion Hbol; subst; clear Hbol.
  inversion H1 as [| | | | | |r1 r2 k1 k2 k3 Hc H2| | | |]; subst; clear H1.
  inversion Hc; subst; clear Hc.
  inversion H2 as [| | | | | |r1 r2 k1 k2 k3 Hs He| | | |]; subst; clear H2.
  apply matches_star_cls in Hs as (body & Hb & Hall). simpl in Hb.
  inversion He as [| |n tail Heol| | | | | | | |]; subst; clear He. simpl in *.
  exists c, body, tail. repeat split; auto.
  destruct tail as [|t [|t' tail]]; simpl in Heol; try discriminate; auto.
  right. apply Ascii.eqb_eq in Heol. now subst.
Qed.

Lemma matches_run rs (body : string) :
  PyStr.all_chars (Re.in_class rs) body = true ->
  forall n tail,
    Re.Matches (Re.Star (Re.Cls rs)) (n, (body ++ tail)%string)
               (n + String.length body, tail).
Proof.
  induction body as [|c body IH]; intros H n tail.
  - simpl. rewrite Nat.add_0_r. constructor.
  - simpl in H. apply andb_true_iff in H as [Hc Hb].
    cbn [append String.length]. rewrite Nat.add_succ_r.
    eapply Re.MStarS; [now constructor|]. exact (IH Hb (S n) tail).
Qed.

(** The shape is also sufficient. *)
Theorem default_regex_accepts (c : ascii) (body tail : string) :
  Re.in_class [("a", "z")]%char c = true ->
  PyStr.all_chars
    (Re.in_class [(".", "."); ("a", "z"); ("0", "9"); ("_", "_"); ("-", "-")]%char)
    body = true ->
  tail = EmptyString \/ tail = String Re.newline EmptyString ->
  Re.re_match default_username_regex (String c (body ++ tail)) = true.
Proof.
  intros Hc Hbody Htail. apply re_match_iff.
  exists (1 + String.length body, tail). unfold default_username_regex.
  eapply Re.MSeq; [constructor|].
  eapply Re.MSeq; [now constructor|].
  eapply Re.MSeq; [exact (matches_run _ body Hbody 1 tail)|].
  constructor. destruct Htail as [->| ->]; reflexivity.
Qed.

(** ** The default pattern and directory-query syntax *)

Lemma username_class_not_query_syntax (c : ascii) :
  Re.in_class [(".", "."); ("a", "z"); ("0", "9"); ("_", "_"); ("-", "-")]%char c = true ->
  query_syntax_char c = false.
Proof.
  destruct c as [[] [] [] [] [] [] [] []]; vm_compute; congruence.
Qed.

Lemma lowercase_in_username_class (c : ascii) :
  Re.in_class [("a", "z")]%char c = true ->
  Re.in_class [(".", "."); ("a", "z"); ("0", "9"); ("_", "_"); ("-", "-")]%char c = true.
Proof.
  destruct c as [[] [] [] [] [] [] [] []]; vm_compute; congruence.
Qed.

Lemma has_char_in p s :
  PyStr.has_char p s = false ->
  forall c, In c (list_ascii_of_string s) -> p c = false.
Proof.
  induction s as [|a s IH]; simpl; [tauto|].
  intros H c. apply orb_false_iff in H as [Ha Hs].
  intros [<-|Hin]; auto.
Qed.

(** C9: a username accepted by the default pattern contains no character
    with a meaning in directory-query syntax; in particular no
    parenthesis, no backslash and no asterisk. *)
Theorem default_pattern_excludes_query_syntax (u : string) :
  Re.re_match default_username_regex u = true ->
  PyStr.has_char query_syntax_char u = false
  /\ forall c, In c (list_ascii_of_string u) ->
               c <> "("%char /\ c <> ")"%char /\ c <> "\"%char /\ c <> "*"%char.
Proof.
  intros H.
  assert (Hq : PyStr.has_char query_syntax_char u = false).
  { apply default_regex_shape in H as (c & body & tail & -> & Hc & Hbody & Htail).
    simpl. rewrite has_char_app.
    rewrite (username_class_not_query_syntax c (lowercase_in_username_class c Hc)).
    rewrite (has_char_none _ query_syntax_char body
               username_class_not_query_syntax Hbody).
    destruct Htail as [->| ->]; reflexivity. }
  split; [exact Hq|].
  intros c Hin. pose proof (has_char_in _ _ Hq c Hin) as Hc.
  repeat split; intros ->; discriminate Hc.
Qed.

Lemma default_pattern_excludes_query_syntax_witness :
  Re.re_match default_username_regex "river" = true
  /\ PyStr.has_char query_syntax_char "river" = false.
Proof.
  split; [reflexivity|].
  apply (default_pattern_excludes_query_syntax "river"). reflexivity.
Defined.

(** The pattern's [$] also holds before a final newline, so a name that
    ends in one newline is accepted although it does not match in full. *)
Example default_pattern_accepts_final_newline :
  Re.re_match default_username_regex (String "r" (String Re.newline "")) = true
  /\ Re.re_fullmatch default_username_regex (String "r" (String Re.newline "")) = false.
Proof. split; reflexivity. Qed.

(** ** [str.format] on templates of text and placeholders *)

Lemma scan_text rt kw v (lit : string) :
  PyStr.has_char is_brace lit = false ->
  forall out rest,
    PyFormat.scan rt kw v PyFormat.SLit out (lit ++ rest)%string
    = PyFormat.scan rt kw v PyFormat.SLit (out ++ lit)%string rest.
Proof.
  induction lit as [|c lit IH]; simpl; intros H out rest.
  - now rewrite append_nil_r.
  - apply orb_false_iff in H as [Hc Hlit].
    unfold is_brace in Hc. apply orb_false_iff in Hc as [Ho Hcl].
    rewrite Ho, Hcl, (IH Hlit). unfold PyFormat.snoc.
    now rewrite append_assoc.
Qed.

Lemma scan_placeholder rt v out rest :
  PyFormat.scan rt "username" v PyFormat.SLit out ("{username}" ++ rest)%string
  = PyFormat.scan rt "username" v PyFormat.SLit (out ++ v)%string rest.
Proof. reflexivity. Qed.

Lemma scan_pieces rt v (ps : list piece) :
  forallb brace_free ps = true ->
  forall out,
    PyFormat.scan rt "username" v PyFormat.SLit out (template_of ps)
    = Ret (out ++ fill ps v)%string.
Proof.
  unfold template_of, fill.
  induction ps as [|[s|] ps IH]; intros H out.
  - simpl. now rewrite append_nil_r.
  - simpl in H. apply andb_true_iff in H as [Hs Hps].
    apply negb_true_iff in Hs.
    cbn [join]. rewrite (scan_text rt "username" v s Hs).
    rewrite (IH Hps). now rewrite append_assoc.
  - simpl in H. cbn [join]. rewrite scan_placeholder.
    rewrite (IH H). now rewrite append_assoc.
Qed.

(** ** [str.replace] *)

Lemma startswith_app (s rest : string) : PyStr.startswith (s ++ rest) s = true.
Proof.
  induction s as [|c s IH]; simpl; [reflexivity|].
  now rewrite Ascii.eqb_refl, IH.
Qed.

Lemma replace_from_skip old new (s rest : string) :
  PyStr.replace_from old new (String.length s) (s ++ rest)
  = PyStr.replace_from old new 0 rest.
Proof. induction s as [|c s IH]; simpl; [reflexivity|exact IH]. Qed.

(** At an occurrence of [old] the replacement is written and the scan
    goes on behind the occurrence. *)
Lemma replace_from_hit old new rest :
  old <> EmptyString ->
  PyStr.replace_from old new 0 (old ++ rest)
  = (new ++ PyStr.replace_from old new 0 rest)%string.
Proof.
  destruct old as [|c old]; [congruence|]. intros _.
  change (String c old ++ rest)%string with (String c (old ++ rest)).
  cbn [PyStr.replace_from].
  change (String c (old ++ rest)) with (String c old ++ rest)%string.
  rewrite startswith_app.
  replace (String.length (String c old) - 1) with (String.length old)
    by (cbn [String.length]; lia).
  now rewrite replace_from_skip.
Qed.

(** Where [old] does not start, one character is copied. *)
Lemma replace_from_miss old new c s :
  PyStr.startswith (String c s) old = false ->
  PyStr.replace_from old new 0 (String c s)
  = String c (PyStr.replace_from old new 0 s).
Proof. intros H. cbn [PyStr.replace_from]. now rewrite H. Qed.

(** Text that lacks the first character of [old] is copied. *)
Lemma replace_from_text c old new (lit : string) :
  PyStr.has_char (Ascii.eqb c) lit = false ->
  forall rest,
    PyStr.replace_from (String c old) new 0 (lit ++ rest)
    = (lit ++ PyStr.replace_from (String c old) new 0 rest)%string.
Proof.
  induction lit as [|a lit IH]; intros H rest; [reflexivity|].
  simpl in H. apply orb_false_iff in H as [Ha Hlit].
  change (String a lit ++ rest)%string with (String a (lit ++ rest)).
  rewrite replace_from_miss.
  - now rewrite (IH Hlit).
  - cbn [PyStr.startswith]. now rewrite Ha.
Qed.

(** Replacing a token in a string made of token-free text and tokens
    writes the replacement at every token. *)
Lemma replace_join c old new (ps : list piece) :
  forallb (lacks c) ps = true ->
  PyStr.replace (String c old) new (join (String c old) ps) = join new ps.
Proof.
  unfold PyStr.replace.
  induction ps as [|[s|] ps IH]; intros H; [reflexivity| |].
  - simpl in H. apply andb_true_iff in H as [Hs Hps].
    apply negb_true_iff in Hs.
    cbn [join]. now rewrite (replace_from_text c old new s Hs), (IH Hps).
  - cbn [join]. rewrite replace_from_hit by discriminate. now rewrite (IH H).
Qed.

(** A string in which [old] does not occur is left as it is. *)
Lemma replace_absent old new (s : string) :
  PyStr.contains old s = false -> PyStr.replace old new s = s.
Proof.
  destruct old as [|c old].
  - destruct s; discriminate.
  - unfold PyStr.replace. induction s as [|a s IH]; [reflexivity|].
    cbn [PyStr.contains]. intros H. apply orb_false_iff in H as [Hp Hs].
    rewrite replace_from_miss by exact Hp. now rewrite (IH Hs).
Qed.

Lemma brace_free_lacks (ps : list piece) :
  forallb brace_free ps = true -> forallb (lacks "{") ps = true.
Proof.
  induction ps as [|[s|] ps IH]; simpl; auto.
  intros H. apply andb_true_iff in H as [Hs Hps]. rewrite (IH Hps), andb_true_r.
  apply negb_true_iff in Hs. apply negb_true_iff.
  clear -Hs. induction s as [|a s IH]; [reflexivity|].
  cbn [PyStr.has_char] in *.
  apply orb_false_iff in Hs as [Ha Hs]. rewrite (IH Hs), orb_false_r.
  unfold is_brace in Ha. apply orb_false_iff in Ha as [Ha _].
  now rewrite Ascii.eqb_sym.
Qed.

(** ** The resolved distinguished name *)

(** C7 (amended): on a template whose braces are only those of its
    [{username}] placeholders, the resolver writes the raw username in
    place of every placeholder and copies the rest, which is what a
    literal replacement of [{username}] gives. *)
Theorem userdn_fills_placeholders rt self (ps : list piece) (u : string) :
  bind_dn_template self = template_of ps ->
  forallb brace_free ps = true ->
  userdn rt self u = Ret (fill ps u)
  /\ userdn rt self u = Ret (PyStr.replace "{username}" u (bind_dn_template self)).
Proof.
  intros Ht Hps.
  assert (H : userdn rt self u = Ret (fill ps u)).
  { unfold userdn, PyFormat.format. rewrite Ht.
    now rewrite (scan_pieces rt u ps Hps). }
  split; [exact H|].
  rewrite H, Ht. unfold template_of, fill.
  now rewrite (replace_join "{" "username}" u ps (brace_free_lacks ps Hps)).
Qed.

Lemma userdn_fills_placeholders_witness :
  bind_dn_template example_config
  = template_of [Text "uid="; Placeholder; Text ",ou=people,dc=example,dc=org"]
  /\ userdn PyFormat.no_renderer example_config "river"
     = Ret "uid=river,ou=people,dc=example,dc=org".
Proof.
  split; [reflexivity|].
  exact (proj1 (userdn_fills_placeholders PyFormat.no_renderer example_config
                  [Text "uid="; Placeholder; Text ",ou=people,dc=example,dc=org"]
                  "river" eq_refl eq_refl)).
Defined.

(** C7, as stated, fails: [str.format] is not a literal replacement.  In
    the template [{{username}}] the doubled braces stand for single
    braces and no field is left, so the name is not written at all. *)
Lemma userdn_not_literal_replacement :
  userdn PyFormat.no_renderer (with_template example_config "{{username}}") "river"
  = Ret "{username}"
  /\ PyStr.replace "{username}" "river" "{{username}}" = "{river}"
  /\ userdn PyFormat.no_renderer (with_template example_config "{{username}}") "river"
     <> Ret (PyStr.replace "{username}" "river" "{{username}}").
Proof. repeat split. discriminate. Qed.

(** ** The account command *)

(** The argument vector as a list: the template with [USERNAME]
    replaced in every argument, followed by the username. *)
Theorem user_cmd_replaces_and_appends (self : LDAPAuthenticator) (name : string) :
  user_cmd self name = map (PyStr.replace "USERNAME" name) (add_user_cmd self) ++ [name]
  /\ List.length (user_cmd self name) = S (List.length (add_user_cmd self))
  /\ nth_error (user_cmd self name) (List.length (add_user_cmd self)) = Some name
  /\ (forall i arg, nth_error (add_user_cmd self) i = Some arg ->
        nth_error (user_cmd self name) i = Some (PyStr.replace "USERNAME" name arg))
  /\ (forall ps, forallb (lacks "U") ps = true ->
        PyStr.replace "USERNAME" name (join "USERNAME" ps) = join name ps)
  /\ (forall arg, PyStr.contains "USERNAME" arg = false ->
        PyStr.replace "USERNAME" name arg = arg)
  /\ user_cmd (with_add_user self ["adduser"; "-q"; "USERNAME"]) "river"
     = ["adduser"; "-q"; "river"; "river"].
Proof.
  unfold user_cmd. repeat split.
  - rewrite length_app, length_map. simpl. lia.
  - rewrite nth_error_app2; rewrite length_map; [|lia].
    now rewrite Nat.sub_diag.
  - intros i arg H. rewrite nth_error_app1.
    + now rewrite nth_error_map, H.
    + rewrite length_map. apply nth_error_Some. congruence.
  - intros ps H. exact (replace_join "U" "SERNAME" name ps H).
  - intros arg H. exact (replace_absent "USERNAME" name arg H).
Qed.

(** ** Computations *)

Lemma bind_lift_ret {A B} (a : A) (k : A -> M B) : bind (lift (Ret a)) k = k a.
Proof. unfold bind, lift. now destruct (k a). Qed.

Lemma bind_lift_raise {A B} (e : exn) (k : A -> M B) :
  bind (lift (Raise e)) k = (Raise e, []).
Proof. reflexivity. Qed.

(** ** The group loop *)

Lemma search_filter_member rt (dn : string) :
  search_filter rt dn = Ret (member_filter dn).
Proof. reflexivity. Qed.

(** One round of the loop, by the answer of the directory. *)
Lemma check_groups_cons rt dir conn u g gs :
  check_groups rt dir conn (conn_user conn) u (g :: gs)
  = match group_answer dir conn g with
    | Ret true => (Ret (Some u), [group_search conn g])
    | Ret false =>
        (result (check_groups rt dir conn (conn_user conn) u gs),
         group_search conn g :: trace (check_groups rt dir conn (conn_user conn) u gs))
    | Raise e => (Raise e, [group_search conn g])
    end.
Proof.
  cbn [check_groups]. rewrite search_filter_member, bind_lift_ret.
  unfold conn_search, call, bind, group_answer, group_search, result, trace.
  destruct (ldap_search dir conn g BASE (member_filter (conn_user conn)) ["member"])
    as [[|]|e]; try reflexivity.
  now destruct (check_groups rt dir conn (conn_user conn) u gs).
Qed.

(** The loop only searches. *)
Lemma check_groups_trace rt dir conn u gs :
  exists n, trace (check_groups rt dir conn (conn_user conn) u gs)
            = map (group_search conn) (firstn n gs).
Proof.
  induction gs as [|g gs [n IH]].
  - exists 0. reflexivity.
  - rewrite check_groups_cons.
    destruct (group_answer dir conn g) as [[|]|e].
    + exists 1. now destruct gs.
    + exists (S n). cbn [trace snd firstn map]. now rewrite <- IH.
    + exists 1. now destruct gs.
Qed.

Lemma check_groups_none rt dir conn u gs :
  (forall g, In g gs -> group_answer dir conn g = Ret false) ->
  check_groups rt dir conn (conn_user conn) u gs
  = (Ret None, map (group_search conn) gs).
Proof.
  induction gs as [|g gs IH]; intros H; [reflexivity|].
  rewrite check_groups_cons, (H g (or_introl eq_refl)).
  rewrite IH by (intros g' Hg'; apply H; now right). reflexivity.
Qed.

Lemma check_groups_first rt dir conn u pre g post :
  (forall g', In g' pre -> group_answer dir conn g' = Ret false) ->
  group_answer dir conn g = Ret true ->
  check_groups rt dir conn (conn_user conn) u (pre ++ g :: post)
  = (Ret (Some u), map (group_search conn) (pre ++ [g])).
Proof.
  intros Hpre Hg. induction pre as [|g' pre IH]; cbn [app].
  - now rewrite check_groups_cons, Hg.
  - rewrite check_groups_cons, (Hpre g' (or_introl eq_refl)).
    rewrite IH by (intros g'' Hg''; apply Hpre; now right). reflexivity.
Qed.

Lemma check_groups_returns rt dir conn u gs :
  (forall g, In g gs -> returns (group_answer dir conn g)) ->
  result (check_groups rt dir conn (conn_user conn) u gs) = Ret None
  \/ result (check_groups rt dir conn (conn_user conn) u gs) = Ret (Some u).
Proof.
  induction gs as [|g gs IH]; intros H; [now left|].
  rewrite check_groups_cons.
  destruct (H g (or_introl eq_refl)) as [[|] ->]; [now right|].
  cbn [result fst]. apply IH. intros g' Hg'. apply H. now right.
Qed.

(** ** [authenticate], case by case *)

Lemma authenticate_invalid_username rt self dir data :
  Re.re_match (valid_username_regex self) (username data) = false ->
  authenticate rt self dir data = (Ret None, [LogWarn "Invalid username"]).
Proof. intros H. unfold authenticate. now rewrite H. Qed.

Lemma authenticate_blank_password rt self dir data :
  Re.re_match (valid_username_regex self) (username data) = true ->
  blank (password data) ->
  authenticate rt self dir data = (Ret None, [LogWarn "Empty password"]).
Proof.
  intros Hu Hp. unfold authenticate. rewrite Hu. cbn [negb].
  destruct Hp as [-> | (p & -> & Hp)]; [reflexivity|].
  now rewrite Hp.
Qed.

Lemma authenticate_format_error rt self dir data pw e :
  Re.re_match (valid_username_regex self) (username data) = true ->
  password data = Some pw ->
  PyStr.strip pw <> EmptyString ->
  userdn rt self (username data) = Raise e ->
  authenticate rt self dir data = (Raise e, []).
Proof.
  intros Hu Hp Hs Hdn. unfold authenticate. rewrite Hu, Hp. cbn [negb].
  apply String.eqb_neq in Hs. now rewrite Hs, Hdn.
Qed.

(** Once the name is resolved, the run is the bind and what follows. *)
Lemma authenticate_valid rt self dir data pw dn :
  Re.re_match (valid_username_regex self) (username data) = true ->
  password data = Some pw ->
  PyStr.strip pw <> EmptyString ->
  userdn rt self (username data) = Ret dn ->
  authenticate rt self dir data
  = match ldap_bind dir (connect self dn pw) with
    | Raise e => (Raise e, [LdapBind (connect self dn pw)])
    | Ret false =>
        (Ret None, [LdapBind (connect self dn pw); LogWarn "Invalid password"])
    | Ret true =>
        match allowed_groups self with
        | [] => (Ret (Some (username data)), [LdapBind (connect self dn pw)])
        | _ :: _ =>
            (result (check_groups rt dir (connect self dn pw) dn (username data)
                                  (allowed_groups self)),
             LdapBind (connect self dn pw)
             :: trace (check_groups rt dir (connect self dn pw) dn (username data)
                                    (allowed_groups self)))
        end
    end.
Proof.
  intros Hu Hp Hs Hdn. unfold authenticate. rewrite Hu, Hp. cbn [negb].
  apply String.eqb_neq in Hs. rewrite Hs, Hdn, bind_lift_ret.
  unfold conn_bind, call, bind.
  destruct (ldap_bind dir (connect self dn pw)) as [[|]|e]; try reflexivity.
  destruct (allowed_groups self) as [|g gs]; [reflexivity|].
  unfold result, trace.
  now destruct (check_groups rt dir (connect self dn pw) dn (username data) (g :: gs)).
Qed.

(** A password made of whitespace counts as empty. *)
Lemma whitespace_password_blank (p : string) :
  PyStr.all_chars PyStr.is_space p = true -> blank (Some p).
Proof. intros H. right. exists p. split; [reflexivity|now apply strip_empty]. Qed.

(** Every run is one of the four cases above. *)
Lemma authenticate_cases rt self dir data :
  (exists msg, authenticate rt self dir data = (Ret None, [LogWarn msg])
               /\ (Re.re_match (valid_username_regex self) (username data) = false
                   \/ blank (password data)))
  \/ (exists pw,
        Re.re_match (valid_username_regex self) (username data) = true
        /\ password data = Some pw
        /\ PyStr.strip pw <> EmptyString
        /\ ((exists e, userdn rt self (username data) = Raise e)
            \/ (exists dn, userdn rt self (username data) = Ret dn))).
Proof.
  destruct (Re.re_match (valid_username_regex self) (username data)) eqn:Hu.
  - assert (Hb : blank (password data)
                 \/ exists pw, password data = Some pw
                               /\ PyStr.strip pw <> EmptyString).
    { destruct (password data) as [pw|]; [|left; now left].
      destruct (String.eqb (PyStr.strip pw) EmptyString) eqn:Hs.
      - left. right. exists pw. split; [reflexivity|now apply String.eqb_eq].
      - right. exists pw. split; [reflexivity|now apply String.eqb_neq]. }
    destruct Hb as [Hb|(pw & Hp & Hs)].
    + left. exists "Empty password". split; [|now right].
      now apply authenticate_blank_password.
    + right. exists pw. repeat split; auto.
      destruct (userdn rt self (username data)) as [dn|e]; eauto.
  - left. exists "Invalid username". split; [|now left].
    now apply authenticate_invalid_username.
Qed.

(** A bind in the trace means the credential passed both checks and the
    name was resolved; the connection is the one built from them. *)
Lemma authenticate_bound rt self dir data conn :
  In (LdapBind conn) (trace (authenticate rt self dir data)) ->
  exists pw dn,
    Re.re_match (valid_username_regex self) (username data) = true
    /\ password data = Some pw
    /\ PyStr.strip pw <> EmptyString
    /\ userdn rt self (username data) = Ret dn
    /\ conn = connect self dn pw.
Proof.
  intros Hin.
  destruct (authenticate_cases rt self dir data)
    as [(msg & Heq & _)|(pw & Hu & Hp & Hs & [(e & Hdn)|(dn & Hdn)])].
  - rewrite Heq in Hin. destruct Hin as [Hin|[]]. discriminate Hin.
  - rewrite (authenticate_format_error rt self dir data Hu Hp Hs Hdn) in Hin.
    destruct Hin.
  - exists pw, dn. repeat split; auto.
    rewrite (authenticate_valid rt self dir data Hu Hp Hs Hdn) in Hin.
    assert (Hhead : forall rest,
               In (LdapBind conn) (LdapBind (connect self dn pw) :: rest) ->
               (forall ev, In ev rest -> is_search ev = true \/ exists m, ev = LogWarn m) ->
               conn = connect self dn pw).
    { intros rest [E|Hr] Hrest; [congruence|].
      destruct (Hrest _ Hr) as [Hs'|(m & Hm)]; discriminate. }
    destruct (ldap_bind dir (connect self dn pw)) as [[|]|e].
    + destruct (allowed_groups self) as [|g gs].
      * apply (Hhead [] Hin). intros ev [].
      * apply (Hhead _ Hin). intros ev Hev. left.
        destruct (check_groups_trace rt dir (connect self dn pw)
                    (username data) (g :: gs)) as [n Hn].
        change (conn_user (connect self dn pw)) with dn in Hn.
        rewrite Hn in Hev.
        apply in_map_iff in Hev as (g' & <- & _). reflexivity.
    + apply (Hhead _ Hin). intros ev [<-|[]]. right. eauto.
    + apply (Hhead [] Hin). intros ev [].
Qed.

Lemma searches_of_bound {A} (r : outcome A) conn gs :
  searches (r, LdapBind conn :: map (group_search conn) gs)
  = map (group_search conn) gs.
Proof.
  unfold searches, trace. cbn [snd filter is_search].
  induction gs as [|g gs IH]; [reflexivity|].
  cbn [map filter group_search is_search]. now rewrite IH.
Qed.

(** ** Verdicts *)

(** C3 (amended): when [re.match] finds no match of the configured
    pattern at the start of the username, or the password is [None] or
    empty after [strip], [authenticate] returns [None], raises nothing
    and issues no directory operation. *)
Theorem invalid_credential_is_rejected_locally rt self dir data :
  Re.re_match (valid_username_regex self) (username data) = false
  \/ blank (password data) ->
  result (authenticate rt self dir data) = Ret None
  /\ directory_ops (authenticate rt self dir data) = [].
Proof.
  intros H.
  destruct (Re.re_match (valid_username_regex self) (username data)) eqn:Hu.
  - destruct H as [H|H]; [discriminate|].
    now rewrite (authenticate_blank_password rt self dir data Hu H).
  - now rewrite (authenticate_invalid_username rt self dir data Hu).
Qed.

Lemma invalid_credential_is_rejected_locally_witness :
  Re.re_match (valid_username_regex example_config) (username injected) = false
  /\ result (authenticate PyFormat.no_renderer example_config (accepting []) injected)
     = Ret None
  /\ directory_ops (authenticate PyFormat.no_renderer example_config (accepting [])
                                 injected) = [].
Proof.
  split; [reflexivity|].
  apply (invalid_credential_is_rejected_locally
           PyFormat.no_renderer example_config (accepting []) injected).
  left. reflexivity.
Defined.

(** C3, as stated, fails: [re.match] anchors the pattern at the start
    only.  Under the pattern [[a-z]+] a username with filter syntax
    behind a lowercase prefix does not match in full, yet it is bound
    with and, if the directory agrees, returned.  Under the default
    pattern the same holds for a name that ends in a newline. *)
Lemma partial_match_reaches_directory :
  (Re.re_fullmatch lowercase_run (username injected) = false
   /\ result (authenticate PyFormat.no_renderer (with_regex example_config lowercase_run)
                           (accepting []) injected)
      = Ret (Some (username injected))
   /\ List.length (directory_ops
                (authenticate PyFormat.no_renderer
                              (with_regex example_config lowercase_run)
                              (accepting []) injected)) = 1)
  /\ (Re.re_fullmatch default_username_regex (username river_newline) = false
      /\ result (authenticate PyFormat.no_renderer example_config
                              (accepting []) river_newline)
         = Ret (Some (username river_newline))
      /\ List.length (directory_ops
                   (authenticate PyFormat.no_renderer example_config
                                 (accepting []) river_newline)) = 1).
Proof. repeat split. Qed.

(** C4: when the bind succeeds and no group is configured, the verdict is
    the username and no search is issued. *)
Theorem bind_without_groups_succeeds rt self dir data conn :
  In (LdapBind conn) (trace (authenticate rt self dir data)) ->
  ldap_bind dir conn = Ret true ->
  allowed_groups self = [] ->
  result (authenticate rt self dir data) = Ret (Some (username data))
  /\ searches (authenticate rt self dir data) = []
  /\ directory_ops (authenticate rt self dir data) = [LdapBind conn].
Proof.
  intros Hin Hb Hg.
  destruct (authenticate_bound rt self dir data conn Hin)
    as (pw & dn & Hu & Hp & Hs & Hdn & ->).
  rewrite (authenticate_valid rt self dir data Hu Hp Hs Hdn), Hb, Hg.
  repeat split.
Qed.

Lemma bind_without_groups_succeeds_witness :
  In (LdapBind (connect example_config "uid=river,ou=people,dc=example,dc=org" "secret"))
     (trace (authenticate PyFormat.no_renderer example_config (accepting []) river))
  /\ result (authenticate PyFormat.no_renderer example_config (accepting []) river)
     = Ret (Some "river").
Proof.
  split; [left; reflexivity|].
  apply (bind_without_groups_succeeds
           PyFormat.no_renderer example_config (accepting []) river
           (connect example_config "uid=river,ou=people,dc=example,dc=org" "secret")).
  - left. reflexivity.
  - reflexivity.
  - reflexivity.
Defined.

(** C5: when the bind succeeds and the configured groups are
    [pre ++ g :: post], with [g] the first group whose search reports
    membership, the groups are searched in the configured order up to
    and including [g], the verdict is the username, and the number of
    searches is the 1-based index of [g]; no later group is queried. *)
Theorem first_matching_group_decides rt self dir data conn pre g post :
  In (LdapBind conn) (trace (authenticate rt self dir data)) ->
  ldap_bind dir conn = Ret true ->
  allowed_groups self = pre ++ g :: post ->
  (forall g', In g' pre -> group_answer dir conn g' = Ret false) ->
  group_answer dir conn g = Ret true ->
  result (authenticate rt self dir data) = Ret (Some (username data))
  /\ searches (authenticate rt self dir data) = map (group_search conn) (pre ++ [g])
  /\ List.length (searches (authenticate rt self dir data)) <= S (List.length pre).
Proof.
  intros Hin Hb Hg Hpre Hhit.
  destruct (authenticate_bound rt self dir data conn Hin)
    as (pw & dn & Hu & Hp & Hs & Hdn & ->).
  rewrite (authenticate_valid rt self dir data Hu Hp Hs Hdn), Hb, Hg.
  pose proof (check_groups_first rt dir (connect self dn pw) (username data)
                pre g post Hpre Hhit) as Hrun.
  change (conn_user (connect self dn pw)) with dn in Hrun.
  assert (Hne : exists g0 gs0, pre ++ g :: post = g0 :: gs0)
    by (destruct pre; simpl; eauto).
  destruct Hne as (g0 & gs0 & Hne). rewrite Hne in *. rewrite Hrun.
  cbn [result trace fst snd]. rewrite searches_of_bound.
  repeat split. rewrite length_map, length_app. simpl. lia.
Qed.

Lemma first_matching_group_decides_witness :
  In (LdapBind (connect (with_groups example_config ["cn=ops"; "cn=staff"; "cn=all"])
                        "uid=river,ou=people,dc=example,dc=org" "secret"))
     (trace (authenticate PyFormat.no_renderer
                          (with_groups example_config ["cn=ops"; "cn=staff"; "cn=all"])
                          (accepting ["cn=staff"; "cn=all"]) river))
  /\ result (authenticate PyFormat.no_renderer
                          (with_groups example_config ["cn=ops"; "cn=staff"; "cn=all"])
                          (accepting ["cn=staff"; "cn=all"]) river)
     = Ret (Some "river")
  /\ List.length (searches (authenticate PyFormat.no_renderer
                         (with_groups example_config ["cn=ops"; "cn=staff"; "cn=all"])
                         (accepting ["cn=staff"; "cn=all"]) river)) <= 2.
Proof.
  split; [left; reflexivity|].
  pose proof (first_matching_group_decides
                PyFormat.no_renderer
                (with_groups example_config ["cn=ops"; "cn=staff"; "cn=all"])
                (accepting ["cn=staff"; "cn=all"]) river
                (connect (with_groups example_config ["cn=ops"; "cn=staff"; "cn=all"])
                         "uid=river,ou=people,dc=example,dc=org" "secret")
                ["cn=ops"] "cn=staff" ["cn=all"]) as H.
  destruct H as (Hr & _ & Hn).
  - left. reflexivity.
  - reflexivity.
  - reflexivity.
  - intros g' [<-|[]]. reflexivity.
  - reflexivity.
  - split; [exact Hr|exact Hn].
Defined.

(** C6: when the bind succeeds, groups are configured and the search
    reports membership for none of them, every group is searched, in
    order, and the verdict is [None]. *)
Theorem no_matching_group_rejects rt self dir data conn :
  In (LdapBind conn) (trace (authenticate rt self dir data)) ->
  ldap_bind dir conn = Ret true ->
  allowed_groups self <> [] ->
  (forall g, In g (allowed_groups self) -> group_answer dir conn g = Ret false) ->
  result (authenticate rt self dir data) = Ret None
  /\ searches (authenticate rt self dir data)
     = map (group_search conn) (allowed_groups self).
Proof.
  intros Hin Hb Hne Hall.
  destruct (authenticate_bound rt self dir data conn Hin)
    as (pw & dn & Hu & Hp & Hs & Hdn & ->).
  rewrite (authenticate_valid rt self dir data Hu Hp Hs Hdn), Hb.
  pose proof (check_groups_none rt dir (connect self dn pw) (username data)
                (allowed_groups self) Hall) as Hrun.
  change (conn_user (connect self dn pw)) with dn in Hrun.
  destruct (allowed_groups self) as [|g gs]; [congruence|].
  rewrite Hrun. cbn [result trace fst snd]. now rewrite searches_of_bound.
Qed.

Lemma no_matching_group_rejects_witness :
  In (LdapBind (connect (with_groups example_config ["cn=ops"; "cn=staff"])
                        "uid=river,ou=people,dc=example,dc=org" "secret"))
     (trace (authenticate PyFormat.no_renderer
                          (with_groups example_config ["cn=ops"; "cn=staff"])
                          (accepting ["cn=guests"]) river))
  /\ result (authenticate PyFormat.no_renderer
                          (with_groups example_config ["cn=ops"; "cn=staff"])
                          (accepting ["cn=guests"]) river)
     = Ret None.
Proof.
  split; [left; reflexivity|].
  apply (no_matching_group_rejects
           PyFormat.no_renderer (with_groups example_config ["cn=ops"; "cn=staff"])
           (accepting ["cn=guests"]) river
           (connect (with_groups example_config ["cn=ops"; "cn=staff"])
                    "uid=river,ou=people,dc=example,dc=org" "secret")).
  - left. reflexivity.
  - reflexivity.
  - discriminate.
  - intros g [<-|[<-|[]]]; reflexivity.
Defined.

(** C1 (amended): when every bind and every group search the directory
    is asked reports an answer and the template formats without error,
    [authenticate] returns a verdict, [None] or the username; a refused
    bind gives [None].  Nothing in [authenticate] catches an exception:
    when the bind raises, as it does when the server cannot be reached,
    [authenticate] raises the same exception. *)
Theorem authenticate_returns_when_directory_answers rt self dir data :
  ((forall conn, returns (ldap_bind dir conn)) ->
   (forall conn g, returns (group_answer dir conn g)) ->
   returns (userdn rt self (username data)) ->
   result (authenticate rt self dir data) = Ret None
   \/ result (authenticate rt self dir data) = Ret (Some (username data)))
  /\ (forall conn, In (LdapBind conn) (trace (authenticate rt self dir data)) ->
                   ldap_bind dir conn = Ret false ->
                   result (authenticate rt self dir data) = Ret None)
  /\ (forall conn e, In (LdapBind conn) (trace (authenticate rt self dir data)) ->
                     ldap_bind dir conn = Raise e ->
                     result (authenticate rt self dir data) = Raise e).
Proof.
  repeat split.
  - intros Hbind Hsearch [dn0 Hdn0].
    destruct (authenticate_cases rt self dir data)
      as [(msg & Heq & _)|(pw & Hu & Hp & Hs & [(e & Hdn)|(dn & Hdn)])].
    + left. now rewrite Heq.
    + congruence.
    + rewrite (authenticate_valid rt self dir data Hu Hp Hs Hdn).
      destruct (Hbind (connect self dn pw)) as [[|] ->]; [|now left].
      destruct (allowed_groups self) as [|g gs] eqn:Hg; [now right|].
      cbn [result fst].
      apply (check_groups_returns rt dir (connect self dn pw) (username data)).
      intros g' _. apply Hsearch.
  - intros conn Hin Hb.
    destruct (authenticate_bound rt self dir data conn Hin)
      as (pw & dn & Hu & Hp & Hs & Hdn & ->).
    now rewrite (authenticate_valid rt self dir data Hu Hp Hs Hdn), Hb.
  - intros conn e Hin Hb.
    destruct (authenticate_bound rt self dir data conn Hin)
      as (pw & dn & Hu & Hp & Hs & Hdn & ->).
    now rewrite (authenticate_valid rt self dir data Hu Hp Hs Hdn), Hb.
Qed.

Lemma authenticate_returns_when_directory_answers_witness :
  (forall conn, returns (ldap_bind refusing conn))
  /\ (forall conn g, returns (group_answer refusing conn g))
  /\ returns (userdn PyFormat.no_renderer example_config (username river))
  /\ (result (authenticate PyFormat.no_renderer example_config refusing river) = Ret None
      \/ result (authenticate PyFormat.no_renderer example_config refusing river)
         = Ret (Some (username river))).
Proof.
  assert (Hb : forall conn, returns (ldap_bind refusing conn))
    by (intros conn; exists false; reflexivity).
  assert (Hs : forall conn g, returns (group_answer refusing conn g))
    by (intros conn g; exists false; reflexivity).
  assert (Hd : returns (userdn PyFormat.no_renderer example_config (username river)))
    by (exists "uid=river,ou=people,dc=example,dc=org"; reflexivity).
  repeat split; try assumption.
  exact (proj1 (authenticate_returns_when_directory_answers
                  PyFormat.no_renderer example_config refusing river) Hb Hs Hd).
Defined.

(** C1, as stated, fails: when the server cannot be reached, [bind]
    raises and [authenticate] raises with it. *)
Lemma connection_failure_escapes :
  authenticate PyFormat.no_renderer example_config unreachable river
  = (Raise (LDAPException "socket connection error while opening"),
     [LdapBind (connect example_config "uid=river,ou=people,dc=example,dc=org" "secret")])
  /\ ~ returns (result (authenticate PyFormat.no_renderer example_config
                                     unreachable river)).
Proof.
  split; [reflexivity|]. intros [v Hv]. discriminate Hv.
Qed.

(** C10: there are a template with a field other than [{username}], and
    a template with an unclosed brace, for which a credential that
    passes both checks makes [authenticate] raise from the formatting
    step, whatever the directory, before the directory is contacted. *)
Theorem template_error_escapes :
  (exists self data,
      PyStr.contains "{foo}" (bind_dn_template self) = true
      /\ Re.re_match (valid_username_regex self) (username data) = true
      /\ ~ blank (password data)
      /\ forall rt dir,
           authenticate rt self dir data = (Raise (KeyError "foo"), []))
  /\ (exists self data,
         bind_dn_template self = "uid={username,ou=people"
         /\ Re.re_match (valid_username_regex self) (username data) = true
         /\ ~ blank (password data)
         /\ forall rt dir,
              authenticate rt self dir data
              = (Raise (ValueError "expected '}' before end of string"), [])).
Proof.
  assert (Hb : ~ blank (password river)).
  { intros [H|(p & H & Hp)]; [discriminate|].
    injection H as <-. discriminate Hp. }
  split.
  - exists (with_template example_config "uid={username},ou={foo},dc=example,dc=org"), river.
    repeat split; auto.
  - exists (with_template example_config "uid={username,ou=people"), river.
    repeat split; auto.
Qed.

(** ** The account hook *)

(** Whatever status the command ends with, the hook returns: the
    [returncode] it reads is the [None] the constructor left. *)
Lemma pre_spawn_start_ignores_exit_status self h name pr :
  add_local_user self = true ->
  existsb (String.eqb name) (passwd h) = false ->
  spawn h (user_cmd self name) = Ret pr ->
  pre_spawn_start self h name
  = (Ret tt, [LogInfo "Creating user: %s" (user_cmd self name);
              ProcessStart (user_cmd self name); Sleep 5]).
Proof.
  intros Ha Hn Hs. unfold pre_spawn_start, getpwnam. rewrite Ha, Hn.
  unfold create_user, Popen, call, emit, bind. now rewrite Hs.
Qed.

(** Had the hook waited, a non-zero status would have been fatal. *)
Lemma ensure_local_account_reports_failure self h name pr :
  add_local_user self = true ->
  existsb (String.eqb name) (passwd h) = false ->
  spawn h (user_cmd self name) = Ret pr ->
  exit_status pr <> 0%Z ->
  result (ensure_local_account self h name)
  = Raise (RuntimeError (failure_message name (output pr))).
Proof.
  intros Ha Hn Hs Hz. unfold ensure_local_account, getpwnam. rewrite Ha, Hn.
  unfold Popen, call, emit, bind. rewrite Hs. cbn.
  apply Z.eqb_neq in Hz. now rewrite Hz.
Qed.

(** C2 (the code differs): with provisioning on, no account for [river]
    and a command that ends with status 1, [pre_spawn_start] sleeps five
    seconds and returns without error, where a hook that waits for the
    command and looks at its status fails with the captured output. *)
Theorem failed_provisioning_goes_unnoticed :
  pre_spawn_start (with_add_user example_config ["adduser"; "-q"; "USERNAME"])
                  adduser_fails "river"
  = (Ret tt, [LogInfo "Creating user: %s" ["adduser"; "-q"; "river"; "river"];
              ProcessStart ["adduser"; "-q"; "river"; "river"]; Sleep 5])
  /\ result (ensure_local_account
               (with_add_user example_config ["adduser"; "-q"; "USERNAME"])
               adduser_fails "river")
     = Raise (RuntimeError
                "Failed to create system user river: adduser: Permission denied").
Proof. split; reflexivity. Qed.

(* ================================================================== *)
(** * Further properties *)

(** ** Every run of [authenticate] *)

Lemma check_groups_run rt dir conn u gs :
  ((forall g, In g gs -> group_answer dir conn g = Ret false)
   /\ check_groups rt dir conn (conn_user conn) u gs
      = (Ret None, map (group_search conn) gs))
  \/ (exists pre g post,
         gs = pre ++ g :: post
         /\ (forall g', In g' pre -> group_answer dir conn g' = Ret false)
         /\ ((group_answer dir conn g = Ret true
              /\ check_groups rt dir conn (conn_user conn) u gs
                 = (Ret (Some u), map (group_search conn) (pre ++ [g])))
             \/ (exists e,
                    group_answer dir conn g = Raise e
                    /\ check_groups rt dir conn (conn_user conn) u gs
                       = (Raise e, map (group_search conn) (pre ++ [g]))))).
Proof.
  induction gs as [|g gs IH].
  - left. split; [intros g []|reflexivity].
  - rewrite check_groups_cons.
    destruct (group_answer dir conn g) as [[|]|e] eqn:Hg.
    + right. exists [], g, gs. split; [reflexivity|]. split; [intros g' []|].
      left. split; [exact Hg|reflexivity].
    + destruct IH as [[Hall Heq]|(pre & g' & post & -> & Hpre & Hend)].
      * left. split.
        -- intros g' [<-|Hin]; auto.
        -- now rewrite Heq.
      * right. exists (g :: pre), g', post. split; [reflexivity|]. split.
        -- intros g'' [<-|Hin]; auto.
        -- destruct Hend as [[Ht Heq]|(e & He & Heq)].
           ++ left. split; [exact Ht|]. now rewrite Heq.
           ++ right. exists e. split; [exact He|]. now rewrite Heq.
    + right. exists [], g, gs. split; [reflexivity|]. split; [intros g' []|].
      right. exists e. split; [exact Hg|reflexivity].
Qed.

Lemma authenticate_run rt self dir data :
  Run rt self dir data (authenticate rt self dir data).
Proof.
  destruct (authenticate_cases rt self dir data)
    as [(msg & Heq & Hwhy)|(pw & Hu & Hp & Hs & [(e & Hdn)|(dn & Hdn)])].
  - destruct (Re.re_match (valid_username_regex self) (username data)) eqn:Hu.
    + destruct Hwhy as [Hwhy|Hwhy]; [discriminate|].
      apply RunEmptyPassword; auto.
      now apply authenticate_blank_password.
    + apply RunInvalidUsername; auto.
      now apply authenticate_invalid_username.
  - eapply RunTemplateError; eauto.
    now apply authenticate_format_error with (pw := pw).
  - assert (Hres : resolved rt self data pw dn) by (repeat split; auto).
    pose proof (authenticate_valid rt self dir data Hu Hp Hs Hdn) as Heq.
    destruct (ldap_bind dir (connect self dn pw)) as [[|]|e] eqn:Hb.
    + destruct (allowed_groups self) as [|g0 gs0] eqn:Hg.
      * eapply RunNoGroups; eauto.
      * pose proof (check_groups_run rt dir (connect self dn pw) (username data)
                      (g0 :: gs0)) as Hloop.
        change (conn_user (connect self dn pw)) with dn in Hloop.
        destruct Hloop as [[Hall Hrun]|(pre & g & post & Hsplit & Hpre & Hend)].
        -- eapply RunNoMatch; eauto.
           ++ rewrite Hg. discriminate.
           ++ now rewrite Hg.
           ++ rewrite Heq, Hrun, Hg. reflexivity.
        -- destruct Hend as [[Ht Hrun]|(e & He & Hrun)].
           ++ eapply RunMatch; eauto.
              ** rewrite Hg. exact Hsplit.
              ** rewrite Heq, Hrun. reflexivity.
           ++ eapply RunSearchError; eauto.
              ** rewrite Hg. exact Hsplit.
              ** rewrite Heq, Hrun. reflexivity.
    + eapply RunBindRefused; eauto.
    + eapply RunBindError; eauto.
Qed.

(** X1: every call of [authenticate] goes one of nine ways: the two
    early returns, the template that does not format, a bind that
    raises, is refused or is accepted without groups, and a group loop
    that runs out, hits or raises; each way fixes the result and the
    trace. *)
Theorem every_run_is_classified rt self dir data :
  Run rt self dir data (authenticate rt self dir data).
Proof. exact (authenticate_run rt self dir data). Qed.

Ltac run_cases rt self dir data :=
  destruct (authenticate_run rt self dir data)
    as [Hu Heq
       |Hu Hblank Heq
       |pw e Hu Hp Hs Hdn Heq
       |pw dn e Hres Hb Heq
       |pw dn Hres Hb Heq
       |pw dn Hres Hb Hg Heq
       |pw dn Hres Hb Hne Hall Heq
       |pw dn pre g post Hres Hb Hg Hpre Hhit Heq
       |pw dn pre g post e Hres Hb Hg Hpre Herr Heq];
  rewrite Heq; cbn [result trace fst snd].

Lemma in_bound_trace conn groups ev :
  In ev (LdapBind conn :: map (group_search conn) groups) ->
  ev = LdapBind conn \/ exists g, In g groups /\ ev = group_search conn g.
Proof.
  intros [<-|Hin]; [now left|]. right.
  apply in_map_iff in Hin as (g & <- & Hg). eauto.
Qed.

Lemma directory_ops_of_bound {A} (r : outcome A) conn groups :
  directory_ops (r, LdapBind conn :: map (group_search conn) groups)
  = LdapBind conn :: map (group_search conn) groups.
Proof.
  unfold directory_ops, trace. cbn [snd filter is_directory_op]. f_equal.
  induction groups as [|g groups IH]; [reflexivity|].
  cbn [map filter group_search is_directory_op]. now rewrite IH.
Qed.

Lemma firstn_through (pre : list string) g post :
  firstn (S (List.length pre)) (pre ++ g :: post) = pre ++ [g].
Proof.
  induction pre as [|a pre IH]; [reflexivity|].
  cbn [List.length app]. rewrite firstn_cons. now rewrite IH.
Qed.

(** X2: a bind goes to the configured server, on the configured port or,
    without one, on 636 with SSL and 389 without, as the resolved name
    and with the password as it was given. *)
Theorem bind_uses_configuration rt self dir data conn :
  In (LdapBind conn) (trace (authenticate rt self dir data)) ->
  conn_address conn = server_address self
  /\ conn_use_ssl conn = use_ssl self
  /\ conn_port conn = match server_port self with
                      | Some p => p
                      | None => if use_ssl self then 636%Z else 389%Z
                      end
  /\ userdn rt self (username data) = Ret (conn_user conn)
  /\ password data = Some (conn_password conn).
Proof.
  intros Hin.
  destruct (authenticate_bound rt self dir data conn Hin)
    as (pw & dn & Hu & Hp & Hs & Hdn & ->).
  repeat split; auto.
Qed.

Lemma bind_uses_configuration_witness :
  In (LdapBind (Connection "ldap.example.org" 636 true
                           "uid=river,ou=people,dc=example,dc=org" "secret"))
     (trace (authenticate PyFormat.no_renderer example_config refusing river))
  /\ conn_port (Connection "ldap.example.org" 636 true
                           "uid=river,ou=people,dc=example,dc=org" "secret")
     = 636%Z.
Proof.
  split; [left; reflexivity|].
  exact (proj1 (proj2 (proj2
           (bind_uses_configuration PyFormat.no_renderer example_config refusing river
              (Connection "ldap.example.org" 636 true
                          "uid=river,ou=people,dc=example,dc=org" "secret")
              (or_introl eq_refl))))).
Defined.

(** X3: a refused bind ends the attempt whatever groups are configured:
    the verdict is [None], the warning is logged and no search is
    issued. *)
Theorem refused_bind_rejects_without_search rt self dir data conn :
  In (LdapBind conn) (trace (authenticate rt self dir data)) ->
  ldap_bind dir conn = Ret false ->
  authenticate rt self dir data
  = (Ret None, [LdapBind conn; LogWarn "Invalid password"]).
Proof.
  intros Hin Hb.
  destruct (authenticate_bound rt self dir data conn Hin)
    as (pw & dn & Hu & Hp & Hs & Hdn & ->).
  now rewrite (authenticate_valid rt self dir data Hu Hp Hs Hdn), Hb.
Qed.

Lemma refused_bind_rejects_without_search_witness :
  In (LdapBind (connect (with_groups example_config ["cn=ops"])
                        "uid=river,ou=people,dc=example,dc=org" "secret"))
     (trace (authenticate PyFormat.no_renderer (with_groups example_config ["cn=ops"])
                          refusing river))
  /\ searches (authenticate PyFormat.no_renderer (with_groups example_config ["cn=ops"])
                            refusing river) = [].
Proof.
  split; [left; reflexivity|].
  rewrite (refused_bind_rejects_without_search
             PyFormat.no_renderer (with_groups example_config ["cn=ops"]) refusing river
             (connect (with_groups example_config ["cn=ops"])
                      "uid=river,ou=people,dc=example,dc=org" "secret")
             (or_introl eq_refl) eq_refl).
  reflexivity.
Defined.

(** X4: an attempt contacts the directory not at all, or with one bind
    followed by searches on an initial run of the configured groups,
    all on that one connection; a search is issued only after the bind
    was accepted. *)
Theorem directory_ops_shape rt self dir data :
  directory_ops (authenticate rt self dir data) = []
  \/ exists conn n,
       directory_ops (authenticate rt self dir data)
       = LdapBind conn :: map (group_search conn) (firstn n (allowed_groups self))
       /\ (0 < n -> ldap_bind dir conn = Ret true).
Proof.
  run_cases rt self dir data.
  - now left.
  - now left.
  - now left.
  - right. exists (connect self dn pw), 0. split; [reflexivity|lia].
  - right. exists (connect self dn pw), 0. split; [reflexivity|lia].
  - right. exists (connect self dn pw), 0. split; [reflexivity|lia].
  - right. exists (connect self dn pw), (List.length (allowed_groups self)).
    split; [|auto]. now rewrite firstn_all, directory_ops_of_bound.
  - right. exists (connect self dn pw), (S (List.length pre)).
    split; [|auto]. now rewrite Hg, firstn_through, directory_ops_of_bound.
  - right. exists (connect self dn pw), (S (List.length pre)).
    split; [|auto]. now rewrite Hg, firstn_through, directory_ops_of_bound.
Qed.

(** X5: a success verdict is the username that was given, and it is only
    returned after a bind the directory accepted and, when groups are
    configured, a search on one of them that reported membership. *)
Theorem success_needs_bind_and_membership rt self dir data v :
  result (authenticate rt self dir data) = Ret (Some v) ->
  v = username data
  /\ exists conn,
       In (LdapBind conn) (trace (authenticate rt self dir data))
       /\ ldap_bind dir conn = Ret true
       /\ (allowed_groups self = []
           \/ exists g, In g (allowed_groups self)
                        /\ In (group_search conn g)
                              (trace (authenticate rt self dir data))
                        /\ group_answer dir conn g = Ret true).
Proof.
  run_cases rt self dir data; intros Hv; try discriminate Hv.
  - injection Hv as <-. split; [reflexivity|].
    exists (connect self dn pw). split; [now left|]. split; [exact Hb|now left].
  - injection Hv as <-. split; [reflexivity|].
    exists (connect self dn pw). split; [now left|]. split; [exact Hb|right].
    exists g. split; [rewrite Hg; apply in_elt|]. split; [|exact Hhit].
    right. apply in_map. apply in_or_app. right. now left.
Qed.

Lemma success_needs_bind_and_membership_witness :
  result (authenticate PyFormat.no_renderer
                       (with_groups example_config ["cn=ops"; "cn=staff"])
                       (accepting ["cn=staff"]) river) = Ret (Some "river")
  /\ "river" = username river.
Proof.
  split; [reflexivity|].
  exact (proj1 (success_needs_bind_and_membership
                  PyFormat.no_renderer
                  (with_groups example_config ["cn=ops"; "cn=staff"])
                  (accepting ["cn=staff"]) river eq_refl)).
Defined.

Lemma check_groups_error rt dir conn u pre g post e :
  (forall g', In g' pre -> group_answer dir conn g' = Ret false) ->
  group_answer dir conn g = Raise e ->
  check_groups rt dir conn (conn_user conn) u (pre ++ g :: post)
  = (Raise e, map (group_search conn) (pre ++ [g])).
Proof.
  intros Hpre Hg. induction pre as [|g' pre IH]; cbn [app].
  - now rewrite check_groups_cons, Hg.
  - rewrite check_groups_cons, (Hpre g' (or_introl eq_refl)).
    rewrite IH by (intros g'' Hg''; apply Hpre; now right). reflexivity.
Qed.

(** X6: when the search on a group raises before any group has
    matched, [authenticate] raises the same exception; the groups
    behind it are not searched. *)
Theorem search_exception_escapes rt self dir data conn pre g post e :
  In (LdapBind conn) (trace (authenticate rt self dir data)) ->
  ldap_bind dir conn = Ret true ->
  allowed_groups self = pre ++ g :: post ->
  (forall g', In g' pre -> group_answer dir conn g' = Ret false) ->
  group_answer dir conn g = Raise e ->
  result (authenticate rt self dir data) = Raise e
  /\ searches (authenticate rt self dir data) = map (group_search conn) (pre ++ [g]).
Proof.
  intros Hin Hb Hg Hpre Herr.
  destruct (authenticate_bound rt self dir data conn Hin)
    as (pw & dn & Hu & Hp & Hs & Hdn & ->).
  rewrite (authenticate_valid rt self dir data Hu Hp Hs Hdn), Hb, Hg.
  pose proof (check_groups_error rt dir (connect self dn pw) (username data)
                pre g post Hpre Herr) as Hrun.
  change (conn_user (connect self dn pw)) with dn in Hrun.
  assert (Hne : exists g0 gs0, pre ++ g :: post = g0 :: gs0)
    by (destruct pre; simpl; eauto).
  destruct Hne as (g0 & gs0 & Hne). rewrite Hne in *. rewrite Hrun.
  cbn [result trace fst snd]. now rewrite searches_of_bound.
Qed.

Lemma search_exception_escapes_witness :
  In (LdapBind (connect (with_groups example_config ["cn=ops"; "cn=staff"; "cn=all"])
                        "uid=river,ou=people,dc=example,dc=org" "secret"))
     (trace (authenticate PyFormat.no_renderer
                          (with_groups example_config ["cn=ops"; "cn=staff"; "cn=all"])
                          (failing_search "cn=staff") river))
  /\ result (authenticate PyFormat.no_renderer
                          (with_groups example_config ["cn=ops"; "cn=staff"; "cn=all"])
                          (failing_search "cn=staff") river)
     = Raise (LDAPException "socket receive error").
Proof.
  split; [left; reflexivity|].
  refine (proj1 (@search_exception_escapes
                   PyFormat.no_renderer
                   (with_groups example_config ["cn=ops"; "cn=staff"; "cn=all"])
                   (failing_search "cn=staff") river
                   (connect (with_groups example_config ["cn=ops"; "cn=staff"; "cn=all"])
                            "uid=river,ou=people,dc=example,dc=org" "secret")
                   ["cn=ops"] "cn=staff" ["cn=all"]
                   (LDAPException "socket receive error") _ _ _ _ _)).
  - left. reflexivity.
  - reflexivity.
  - reflexivity.
  - intros g' [<-|[]]. reflexivity.
  - reflexivity.
Defined.

(** X7: a rejection has one of four causes: the username did not match,
    the password was blank, the bind was refused, or the bind was
    accepted and every configured group was searched without a hit. *)
Theorem rejection_has_a_cause rt self dir data :
  result (authenticate rt self dir data) = Ret None ->
  Re.re_match (valid_username_regex self) (username data) = false
  \/ blank (password data)
  \/ exists conn,
       In (LdapBind conn) (trace (authenticate rt self dir data))
       /\ (ldap_bind dir conn = Ret false
           \/ (ldap_bind dir conn = Ret true
               /\ allowed_groups self <> []
               /\ searches (authenticate rt self dir data)
                  = map (group_search conn) (allowed_groups self)
               /\ forall g, In g (allowed_groups self) ->
                            group_answer dir conn g = Ret false)).
Proof.
  run_cases rt self dir data; intros Hv; try discriminate Hv.
  - now left.
  - right. now left.
  - right. right. exists (connect self dn pw). split; [now left|now left].
  - right. right. exists (connect self dn pw). split; [now left|right].
    rewrite <- Heq. rewrite Heq at 1. rewrite searches_of_bound. auto.
Qed.

Lemma rejection_has_a_cause_witness :
  result (authenticate PyFormat.no_renderer example_config refusing river) = Ret None
  /\ exists conn,
       In (LdapBind conn)
          (trace (authenticate PyFormat.no_renderer example_config refusing river))
       /\ ldap_bind refusing conn = Ret false.
Proof.
  split; [reflexivity|].
  destruct (rejection_has_a_cause PyFormat.no_renderer example_config refusing river
              eq_refl) as [H|[H|(conn & Hin & H)]].
  - discriminate H.
  - exfalso. destruct H as [H|(p & H & Hp)]; [discriminate H|].
    injection H as <-. discriminate Hp.
  - exists conn. split; [exact Hin|reflexivity].
Defined.

(** X8: [authenticate] raises only what the template formatting, the
    bind or a group search raised; a credential that fails a check
    never makes it raise. *)
Theorem exception_has_a_source rt self dir data exc :
  result (authenticate rt self dir data) = Raise exc ->
  Re.re_match (valid_username_regex self) (username data) = true
  /\ ~ blank (password data)
  /\ (userdn rt self (username data) = Raise exc
      \/ exists conn,
           In (LdapBind conn) (trace (authenticate rt self dir data))
           /\ (ldap_bind dir conn = Raise exc
               \/ exists g, In g (allowed_groups self)
                            /\ group_answer dir conn g = Raise exc)).
Proof.
  assert (Hnb : forall pw, password data = Some pw -> PyStr.strip pw <> EmptyString ->
                           ~ blank (password data)).
  { intros pw Hp Hs [H|(p & H & Hp')]; congruence. }
  run_cases rt self dir data; intros Hv; try discriminate Hv; injection Hv as <-.
  - split; [exact Hu|]. split; [now apply (Hnb pw)|now left].
  - destruct Hres as (Hu & Hp & Hs & Hdn).
    split; [exact Hu|]. split; [now apply (Hnb pw)|right].
    exists (connect self dn pw). split; [now left|now left].
  - destruct Hres as (Hu & Hp & Hs & Hdn).
    split; [exact Hu|]. split; [now apply (Hnb pw)|right].
    exists (connect self dn pw). split; [now left|right].
    exists g. split; [rewrite Hg; apply in_elt|exact Herr].
Qed.

Lemma exception_has_a_source_witness :
  result (authenticate PyFormat.no_renderer example_config unreachable river)
  = Raise (LDAPException "socket connection error while opening")
  /\ Re.re_match (valid_username_regex example_config) (username river) = true.
Proof.
  split; [reflexivity|].
  exact (proj1 (exception_has_a_source
                  PyFormat.no_renderer example_config unreachable river eq_refl)).
Defined.

Lemma trace_events rt self dir data ev :
  In ev (trace (authenticate rt self dir data)) ->
  (exists msg, ev = LogWarn msg /\ In msg warnings)
  \/ (exists conn, ev = LdapBind conn)
  \/ (exists conn g, ev = group_search conn g /\ In g (allowed_groups self)).
Proof.
  assert (Hbound : forall conn gs, incl gs (allowed_groups self) ->
               In ev (LdapBind conn :: map (group_search conn) gs) ->
               (exists msg, ev = LogWarn msg /\ In msg warnings)
               \/ (exists conn, ev = LdapBind conn)
               \/ (exists conn g, ev = group_search conn g /\ In g (allowed_groups self))).
  { intros conn gs Hincl Hin.
    apply in_bound_trace in Hin as [->|(g & Hg & ->)]; right; [left|right]; eauto. }
  run_cases rt self dir data.
  - intros [<-|[]]. left. exists "Invalid username". split; [reflexivity|now left].
  - intros [<-|[]]. left. exists "Empty password".
    split; [reflexivity|right; now left].
  - intros [].
  - intros [<-|[]]. right. left. eauto.
  - intros [<-|[<-|[]]].
    + right. left. eauto.
    + left. exists "Invalid password". split; [reflexivity|right; right; now left].
  - intros [<-|[]]. right. left. eauto.
  - apply Hbound. apply incl_refl.
  - apply Hbound. rewrite Hg. intros x Hx.
    apply in_app_or in Hx as [Hx|[<-|[]]]; [apply in_or_app; now left|apply in_elt].
  - apply Hbound. rewrite Hg. intros x Hx.
    apply in_app_or in Hx as [Hx|[<-|[]]]; [apply in_or_app; now left|apply in_elt].
Qed.

(** X9: what [authenticate] writes to the log is one of three fixed
    warnings, so neither the username nor the password nor the resolved
    name reaches the log; it logs nothing else, starts no process and
    does not sleep. *)
Theorem log_carries_no_credential rt self dir data :
  (forall msg, In (LogWarn msg) (trace (authenticate rt self dir data)) ->
               In msg warnings)
  /\ (forall msg args, ~ In (LogInfo msg args) (trace (authenticate rt self dir data)))
  /\ (forall cmd, ~ In (ProcessStart cmd) (trace (authenticate rt self dir data)))
  /\ (forall n, ~ In (Sleep n) (trace (authenticate rt self dir data))).
Proof.
  repeat split.
  - intros msg Hin.
    destruct (trace_events rt self dir data _ Hin)
      as [(m & E & Hm)|[(c & E)|(c & g & E & _)]]; try discriminate E.
    now injection E as ->.
  - intros msg args Hin.
    destruct (trace_events rt self dir data _ Hin)
      as [(m & E & Hm)|[(c & E)|(c & g & E & _)]]; discriminate E.
  - intros cmd Hin.
    destruct (trace_events rt self dir data _ Hin)
      as [(m & E & Hm)|[(c & E)|(c & g & E & _)]]; discriminate E.
  - intros n Hin.
    destruct (trace_events rt self dir data _ Hin)
      as [(m & E & Hm)|[(c & E)|(c & g & E & _)]]; discriminate E.
Qed.

Lemma log_carries_no_credential_witness :
  In (LogWarn "Invalid password")
     (trace (authenticate PyFormat.no_renderer example_config refusing river))
  /\ In "Invalid password" warnings.
Proof.
  split; [right; left; reflexivity|].
  apply (proj1 (log_carries_no_credential
                  PyFormat.no_renderer example_config refusing river)).
  right. left. reflexivity.
Defined.

(** X10: a rejection for lack of group membership leaves no warning:
    the trace is the bind and the searches and nothing else. *)
Theorem group_mismatch_is_not_logged rt self dir data conn :
  In (LdapBind conn) (trace (authenticate rt self dir data)) ->
  ldap_bind dir conn = Ret true ->
  allowed_groups self <> [] ->
  (forall g, In g (allowed_groups self) -> group_answer dir conn g = Ret false) ->
  trace (authenticate rt self dir data)
  = LdapBind conn :: map (group_search conn) (allowed_groups self)
  /\ forall msg, ~ In (LogWarn msg) (trace (authenticate rt self dir data)).
Proof.
  intros Hin Hb Hne Hall.
  destruct (authenticate_bound rt self dir data conn Hin)
    as (pw & dn & Hu & Hp & Hs & Hdn & ->).
  assert (Ht : trace (authenticate rt self dir data)
               = LdapBind (connect self dn pw)
                 :: map (group_search (connect self dn pw)) (allowed_groups self)).
  { rewrite (authenticate_valid rt self dir data Hu Hp Hs Hdn), Hb.
    pose proof (check_groups_none rt dir (connect self dn pw) (username data)
                  (allowed_groups self) Hall) as Hrun.
    change (conn_user (connect self dn pw)) with dn in Hrun.
    destruct (allowed_groups self) as [|g gs]; [congruence|].
    now rewrite Hrun. }
  split; [exact Ht|].
  intros msg Hm. rewrite Ht in Hm.
  apply in_bound_trace in Hm as [E|(g & _ & E)]; discriminate E.
Qed.

Lemma group_mismatch_is_not_logged_witness :
  In (LdapBind (connect (with_groups example_config ["cn=ops"])
                        "uid=river,ou=people,dc=example,dc=org" "secret"))
     (trace (authenticate PyFormat.no_renderer (with_groups example_config ["cn=ops"])
                          (accepting []) river))
  /\ List.length (trace (authenticate PyFormat.no_renderer
                                      (with_groups example_config ["cn=ops"])
                                      (accepting []) river)) = 2.
Proof.
  split; [left; reflexivity|].
  destruct (group_mismatch_is_not_logged
              PyFormat.no_renderer (with_groups example_config ["cn=ops"])
              (accepting []) river
              (connect (with_groups example_config ["cn=ops"])
                       "uid=river,ou=people,dc=example,dc=org" "secret"))
    as [Ht _].
  - left. reflexivity.
  - reflexivity.
  - discriminate.
  - intros g [<-|[]]. reflexivity.
  - rewrite Ht. reflexivity.
Defined.

(** ** Usernames and what they are written into *)

(** X11: under [re.match] the default pattern accepts exactly the names
    made of a lowercase letter, then lowercase letters, digits, [.],
    [_] and [-], then nothing or one newline. *)
Theorem default_regex_iff (u : string) :
  Re.re_match default_username_regex u = true
  <-> exists c body tail,
        u = String c (body ++ tail)
        /\ Re.in_class [("a", "z")]%char c = true
        /\ PyStr.all_chars
             (Re.in_class [(".", "."); ("a", "z"); ("0", "9"); ("_", "_"); ("-", "-")]%char)
             body = true
        /\ (tail = EmptyString \/ tail = String Re.newline EmptyString).
Proof.
  split.
  - apply default_regex_shape.
  - intros (c & body & tail & -> & Hc & Hbody & Htail).
    now apply default_regex_accepts.
Qed.

Lemma username_class_not_filter_syntax (c : ascii) :
  Re.in_class [(".", "."); ("a", "z"); ("0", "9"); ("_", "_"); ("-", "-")]%char c = true ->
  filter_syntax_char c = false.
Proof.
  destruct c as [[] [] [] [] [] [] [] []]; vm_compute; congruence.
Qed.

Lemma accepted_name_not_filter_syntax (u : string) :
  Re.re_match default_username_regex u = true ->
  PyStr.has_char filter_syntax_char u = false.
Proof.
  intros H.
  apply default_regex_shape in H as (c & body & tail & -> & Hc & Hbody & Htail).
  simpl. rewrite has_char_app.
  rewrite (username_class_not_filter_syntax c (lowercase_in_username_class c Hc)).
  rewrite (has_char_none _ filter_syntax_char body
             username_class_not_filter_syntax Hbody).
  destruct Htail as [->| ->]; reflexivity.
Qed.

Lemma has_char_join p (u : string) (ps : list piece) :
  PyStr.has_char p u = false ->
  forallb (fun pc => match pc with
                     | Text s => negb (PyStr.has_char p s)
                     | Placeholder => true
                     end) ps = true ->
  PyStr.has_char p (join u ps) = false.
Proof.
  intros Hu. induction ps as [|[s|] ps IH]; intros H; [reflexivity| |].
  - simpl in H. apply andb_true_iff in H as [Hs Hps].
    apply negb_true_iff in Hs.
    cbn [join]. now rewrite has_char_app, Hs, (IH Hps).
  - cbn [join]. now rewrite has_char_app, Hu, (IH H).
Qed.

(** A search in the trace is the membership search of a configured
    group for the resolved name. *)
Lemma search_in_trace rt self dir data conn base scope filter attrs :
  In (LdapSearch conn base scope filter attrs) (trace (authenticate rt self dir data)) ->
  exists pw dn,
    resolved rt self data pw dn
    /\ conn = connect self dn pw
    /\ In base (allowed_groups self)
    /\ scope = BASE
    /\ filter = member_filter dn
    /\ attrs = ["member"].
Proof.
  assert (Hbound : forall pw dn gs,
             resolved rt self data pw dn ->
             incl gs (allowed_groups self) ->
             In (LdapSearch conn base scope filter attrs)
                (LdapBind (connect self dn pw)
                 :: map (group_search (connect self dn pw)) gs) ->
             exists pw dn,
               resolved rt self data pw dn
               /\ conn = connect self dn pw
               /\ In base (allowed_groups self)
               /\ scope = BASE
               /\ filter = member_filter dn
               /\ attrs = ["member"]).
  { intros pw dn gs Hres Hincl Hin.
    apply in_bound_trace in Hin as [E|(g & Hg & E)]; [discriminate E|].
    unfold group_search in E. injection E as -> -> -> -> ->.
    exists pw, dn. split; [exact Hres|]. repeat split; auto. }
  run_cases rt self dir data.
  - intros [E|[]]. discriminate E.
  - intros [E|[]]. discriminate E.
  - intros [].
  - intros [E|[]]. discriminate E.
  - intros [E|[E|[]]]; discriminate E.
  - intros [E|[]]. discriminate E.
  - apply (Hbound pw dn _ Hres). apply incl_refl.
  - apply (Hbound pw dn _ Hres). rewrite Hg. intros x Hx.
    apply in_app_or in Hx as [Hx|[<-|[]]]; [apply in_or_app; now left|apply in_elt].
  - apply (Hbound pw dn _ Hres). rewrite Hg. intros x Hx.
    apply in_app_or in Hx as [Hx|[<-|[]]]; [apply in_or_app; now left|apply in_elt].
Qed.

(** X12: with the default pattern and a template of placeholders and
    text without braces or filter syntax, every search [authenticate]
    issues is a base-scope search on a configured group, for the
    attribute [member], with the filter [(member=dn)] in which [dn]
    holds no parenthesis, asterisk, backslash or NUL: the username
    cannot change the shape of the filter. *)
Theorem search_filter_keeps_its_shape rt self dir data (ps : list piece)
        conn base scope filter attrs :
  valid_username_regex self = default_username_regex ->
  bind_dn_template self = template_of ps ->
  forallb brace_free ps = true ->
  forallb filter_safe ps = true ->
  In (LdapSearch conn base scope filter attrs) (trace (authenticate rt self dir data)) ->
  exists dn,
    filter = ("(member=" ++ dn ++ ")")%string
    /\ PyStr.has_char filter_syntax_char dn = false
    /\ dn = fill ps (username data)
    /\ scope = BASE
    /\ attrs = ["member"]
    /\ In base (allowed_groups self).
Proof.
  intros Hre Ht Hbr Hsafe Hin.
  destruct (search_in_trace rt self dir data _ _ _ _ _ Hin)
    as (pw & dn & (Hu & Hp & Hs & Hdn) & -> & Hbase & -> & -> & ->).
  exists dn. repeat split; auto.
  - unfold userdn, PyFormat.format in Hdn. rewrite Ht in Hdn.
    rewrite (scan_pieces rt (username data) ps Hbr) in Hdn.
    injection Hdn as <-. cbn [append]. unfold fill.
    apply has_char_join; [|exact Hsafe].
    apply accepted_name_not_filter_syntax. now rewrite <- Hre.
  - unfold userdn, PyFormat.format in Hdn. rewrite Ht in Hdn.
    rewrite (scan_pieces rt (username data) ps Hbr) in Hdn.
    now injection Hdn as <-.
Qed.

Lemma search_filter_keeps_its_shape_witness :
  In (LdapSearch (connect (with_groups example_config ["cn=ops"])
                          "uid=river,ou=people,dc=example,dc=org" "secret")
                 "cn=ops" BASE "(member=uid=river,ou=people,dc=example,dc=org)"
                 ["member"])
     (trace (authenticate PyFormat.no_renderer (with_groups example_config ["cn=ops"])
                          (accepting []) river))
  /\ exists dn,
       "(member=uid=river,ou=people,dc=example,dc=org)" = ("(member=" ++ dn ++ ")")%string
       /\ PyStr.has_char filter_syntax_char dn = false.
Proof.
  split; [right; left; reflexivity|].
  destruct (search_filter_keeps_its_shape
              PyFormat.no_renderer (with_groups example_config ["cn=ops"])
              (accepting []) river
              [Text "uid="; Placeholder; Text ",ou=people,dc=example,dc=org"]
              (connect (with_groups example_config ["cn=ops"])
                       "uid=river,ou=people,dc=example,dc=org" "secret")
              "cn=ops" BASE "(member=uid=river,ou=people,dc=example,dc=org)"
              ["member"])
    as (dn & Hf & Hsafe & _).
  - reflexivity.
  - reflexivity.
  - reflexivity.
  - reflexivity.
  - right. left. reflexivity.
  - exists dn. split; [exact Hf|exact Hsafe].
Defined.

(** X13: given a username that matches, the attempt stops at the
    password check exactly when the password is [None] or made of
    whitespace only. *)
Theorem blank_password_iff rt self dir data :
  Re.re_match (valid_username_regex self) (username data) = true ->
  authenticate rt self dir data = (Ret None, [LogWarn "Empty password"])
  <-> (password data = None
       \/ exists p, password data = Some p
                    /\ PyStr.all_chars PyStr.is_space p = true).
Proof.
  intros Hvalid. split.
  - intros Heq0.
    assert (Hb : blank (password data)).
    { revert Heq0. run_cases rt self dir data; intros E;
        solve [assumption | congruence | discriminate E]. }
    destruct Hb as [Hn|(p & Hp & Hs)]; [now left|right].
    exists p. split; [exact Hp|now apply strip_empty].
  - intros Hpw. apply authenticate_blank_password; [exact Hvalid|].
    destruct Hpw as [Hn|(p & Hp & Hs)]; [now left|right].
    exists p. split; [exact Hp|now apply strip_empty].
Qed.

Lemma blank_password_iff_witness :
  Re.re_match (valid_username_regex example_config) "river" = true
  /\ authenticate PyFormat.no_renderer example_config (accepting [])
                  {| username := "river"; password := Some "   " |}
     = (Ret None, [LogWarn "Empty password"]).
Proof.
  split; [reflexivity|].
  apply (proj2 (blank_password_iff PyFormat.no_renderer example_config (accepting [])
                  {| username := "river"; password := Some "   " |} eq_refl)).
  right. exists "   ". split; reflexivity.
Defined.

(** ** The account hook, further *)

(** X14: with provisioning off, or with an account of that name in the
    password database, the hook does nothing: no command is started and
    nothing is logged. *)
Theorem hook_is_idle self h name :
  add_local_user self = false
  \/ existsb (String.eqb name) (passwd h) = true ->
  pre_spawn_start self h name = (Ret tt, []).
Proof.
  intros [H|H]; unfold pre_spawn_start.
  - now rewrite H.
  - destruct (add_local_user self); [|reflexivity].
    unfold getpwnam. now rewrite H.
Qed.

Lemma hook_is_idle_witness :
  existsb (String.eqb "river") (passwd has_river) = true
  /\ pre_spawn_start (with_add_user example_config ["adduser"; "-q"; "USERNAME"])
                     has_river "river" = (Ret tt, []).
Proof.
  split; [reflexivity|].
  apply (hook_is_idle (with_add_user example_config ["adduser"; "-q"; "USERNAME"])
                      has_river "river").
  right. reflexivity.
Defined.

(** X15: when the command cannot be started, the hook raises what
    [Popen] raised, right after the log entry and without sleeping. *)
Theorem start_failure_escapes self h name e :
  add_local_user self = true ->
  existsb (String.eqb name) (passwd h) = false ->
  spawn h (user_cmd self name) = Raise e ->
  pre_spawn_start self h name
  = (Raise e, [LogInfo "Creating user: %s" (user_cmd self name);
               ProcessStart (user_cmd self name)]).
Proof.
  intros Ha Hn Hs. unfold pre_spawn_start, getpwnam. rewrite Ha, Hn.
  unfold create_user, Popen, call, emit, bind. now rewrite Hs.
Qed.

Lemma start_failure_escapes_witness :
  add_local_user (with_add_user example_config ["adduser"; "-q"; "USERNAME"]) = true
  /\ result (pre_spawn_start (with_add_user example_config ["adduser"; "-q"; "USERNAME"])
                             no_adduser "river")
     = Raise (OSError "No such file or directory: 'adduser'").
Proof.
  split; [reflexivity|].
  rewrite (@start_failure_escapes
             (with_add_user example_config ["adduser"; "-q"; "USERNAME"])
             no_adduser "river" (OSError "No such file or directory: 'adduser'")
             eq_refl eq_refl eq_refl).
  reflexivity.
Defined.

(** X16: the hook starts at most one process, only with provisioning on
    and no account of that name, and the command it starts is the
    template with the name filled in; it never contacts the directory. *)
Theorem hook_starts_only_the_account_command self h name :
  (forall cmd, In (ProcessStart cmd) (trace (pre_spawn_start self h name)) ->
               add_local_user self = true
               /\ existsb (String.eqb name) (passwd h) = false
               /\ cmd = user_cmd self name)
  /\ List.length (filter (fun ev => match ev with
                                    | ProcessStart _ => true
                                    | _ => false
                                    end)
                         (trace (pre_spawn_start self h name))) <= 1
  /\ directory_ops (pre_spawn_start self h name) = [].
Proof.
  unfold pre_spawn_start, getpwnam.
  destruct (add_local_user self) eqn:Ha.
  2: { split; [intros cmd []|split; [simpl; lia|reflexivity]]. }
  destruct (existsb (String.eqb name) (passwd h)) eqn:Hn.
  { split; [intros cmd []|split; [simpl; lia|reflexivity]]. }
  unfold create_user, Popen, call, emit, bind.
  destruct (spawn h (user_cmd self name)) as [pr|e]; cbn.
  - split; [|split; [lia|reflexivity]].
    intros cmd [E|[E|[E|[]]]]; try discriminate E.
    injection E as <-. auto.
  - split; [|split; [lia|reflexivity]].
    intros cmd [E|[E|[]]]; try discriminate E.
    injection E as <-. auto.
Qed.

Lemma hook_starts_only_the_account_command_witness :
  In (ProcessStart ["adduser"; "-q"; "river"; "river"])
     (trace (pre_spawn_start (with_add_user example_config ["adduser"; "-q"; "USERNAME"])
                             adduser_fails "river"))
  /\ ["adduser"; "-q"; "river"; "river"]
     = user_cmd (with_add_user example_config ["adduser"; "-q"; "USERNAME"]) "river".
Proof.
  split; [right; left; reflexivity|].
  apply (proj1 (hook_starts_only_the_account_command
                  (with_add_user example_config ["adduser"; "-q"; "USERNAME"])
                  adduser_fails "river")).
  right. left. reflexivity.
Defined.

Lemma map_replace_absent name (args : list string) :
  (forall arg, In arg args -> PyStr.contains "USERNAME" arg = false) ->
  map (PyStr.replace "USERNAME" name) args = args.
Proof.
  induction args as [|a args IH]; intros H; [reflexivity|].
  cbn [map]. rewrite (replace_absent "USERNAME" name a (H a (or_introl eq_refl))).
  rewrite IH by (intros arg Harg; apply H; now right). reflexivity.
Qed.

(** When no argument of the template holds the token, the argument
    vector is the template followed by the name. *)
Theorem tokenless_template_appends_name self name :
  (forall arg, In arg (add_user_cmd self) -> PyStr.contains "USERNAME" arg = false) ->
  user_cmd self name = add_user_cmd self ++ [name].
Proof.
  intros H. unfold user_cmd. now rewrite (map_replace_absent name _ H).
Qed.

(** ** The command the hook starts *)

(** With provisioning on and no account of that name, the hook starts
    one process, whether or not the start succeeds. *)
Lemma started_by_hook self h name :
  add_local_user self = true ->
  existsb (String.eqb name) (passwd h) = false ->
  filter is_process_start (trace (pre_spawn_start self h name))
  = [ProcessStart (user_cmd self name)].
Proof.
  intros Ha Hn. unfold pre_spawn_start, getpwnam. rewrite Ha, Hn.
  unfold create_user, Popen, call, emit, bind.
  now destruct (spawn h (user_cmd self name)).
Qed.

(** C8: with provisioning on and no account of that name, the one
    process [pre_spawn_start] starts has as its argument vector the
    template with [USERNAME] replaced by the username in every argument,
    followed by the username; replacing writes the username at every
    token of an argument and leaves an argument without the token as it
    is; for the template [adduser -q USERNAME] and [river] the process
    started is [adduser -q river river]. *)
Theorem hook_runs_substituted_command self h name :
  add_local_user self = true ->
  existsb (String.eqb name) (passwd h) = false ->
  filter is_process_start (trace (pre_spawn_start self h name))
  = [ProcessStart (map (PyStr.replace "USERNAME" name) (add_user_cmd self) ++ [name])]
  /\ (forall ps, forallb (lacks "U") ps = true ->
        PyStr.replace "USERNAME" name (join "USERNAME" ps) = join name ps)
  /\ (forall arg, PyStr.contains "USERNAME" arg = false ->
        PyStr.replace "USERNAME" name arg = arg)
  /\ (forall h', existsb (String.eqb "river") (passwd h') = false ->
        filter is_process_start
               (trace (pre_spawn_start (with_add_user self ["adduser"; "-q"; "USERNAME"])
                                       h' "river"))
        = [ProcessStart ["adduser"; "-q"; "river"; "river"]]).
Proof.
  intros Ha Hn. split; [|split; [|split]].
  - exact (started_by_hook self h name Ha Hn).
  - intros ps H. exact (replace_join "U" "SERNAME" name ps H).
  - intros arg H. exact (replace_absent "USERNAME" name arg H).
  - intros h' Hn'.
    exact (started_by_hook (with_add_user self ["adduser"; "-q"; "USERNAME"])
                           h' "river" eq_refl Hn').
Qed.

Lemma hook_runs_substituted_command_witness :
  add_local_user (with_add_user example_config
                    ["adduser"; "--home"; "/customhome/USERNAME"]) = true
  /\ existsb (String.eqb "river") (passwd adduser_fails) = false
  /\ filter is_process_start
            (trace (pre_spawn_start
                      (with_add_user example_config
                         ["adduser"; "--home"; "/customhome/USERNAME"])
                      adduser_fails "river"))
     = [ProcessStart ["adduser"; "--home"; "/customhome/river"; "river"]].
Proof.
  split; [reflexivity|]. split; [reflexivity|].
  exact (proj1 (hook_runs_substituted_command
                  (with_add_user example_config
                     ["adduser"; "--home"; "/customhome/USERNAME"])
                  adduser_fails "river" eq_refl eq_refl)).
Defined.

(** X17: with provisioning on and no account of that name, when no
    argument of the template holds the token [USERNAME], as in the
    default template, the one process [pre_spawn_start] starts is the
    template followed by the name. *)
Theorem hook_runs_tokenless_template self h name :
  add_local_user self = true ->
  existsb (String.eqb name) (passwd h) = false ->
  (forall arg, In arg (add_user_cmd self) -> PyStr.contains "USERNAME" arg = false) ->
  filter is_process_start (trace (pre_spawn_start self h name))
  = [ProcessStart (add_user_cmd self ++ [name])].
Proof.
  intros Ha Hn Hfree. rewrite (started_by_hook self h name Ha Hn).
  unfold user_cmd. now rewrite (map_replace_absent name _ Hfree).
Qed.

Lemma hook_runs_tokenless_template_witness :
  add_local_user (with_add_user example_config _add_user_cmd_default) = true
  /\ existsb (String.eqb "river") (passwd adduser_fails) = false
  /\ (forall arg, In arg (add_user_cmd (with_add_user example_config
                                          _add_user_cmd_default)) ->
                  PyStr.contains "USERNAME" arg = false)
  /\ filter is_process_start
            (trace (pre_spawn_start (with_add_user example_config _add_user_cmd_default)
                                    adduser_fails "river"))
     = [ProcessStart ["adduser"; "-q"; "--force-badname"; "--gecos"; two_quotes;
                      "--disabled-password"; "river"]].
Proof.
  assert (H : forall arg, In arg (add_user_cmd (with_add_user example_config
                                                  _add_user_cmd_default)) ->
                          PyStr.contains "USERNAME" arg = false).
  { intros arg [<-|[<-|[<-|[<-|[<-|[<-|[]]]]]]]; reflexivity. }
  split; [reflexivity|]. split; [reflexivity|]. split; [exact H|].
  exact (hook_runs_tokenless_template
           (with_add_user example_config _add_user_cmd_default)
           adduser_fails "river" eq_refl eq_refl H).
Defined.
